(** * fehler-go: diagnostic rendering engine

    A shallow embedding of [fehler.go] (ranges, severities, the three console
    renderers, the snippet and underline printer) and of [sarif.go] (the
    structured report), with the properties of the rendering engine proved
    about it.

    Conventions of the embedding:
    - a Go [int] is a [Z] in the 64-bit two's-complement interval; [+] and
      [-] of the source are [GoInt.add] and [GoInt.sub], which wrap;
    - a Go [string] is a [string]; [*T] used as an optional field is
      [option T];
    - code that writes to standard output and may panic lives in the
      [Console] monad: the bytes written so far, and either a value or the
      panic that stopped the call;
    - [map[string]T] is [gmap string T]. *)

From Stdlib Require Import ZArith Lia Ascii String.
From stdpp Require Import gmap strings list list_numbers pretty.

Local Open Scope Z_scope.

(** ** Go's [int] *)

Module GoInt.

Definition min_int : Z := - 2 ^ 63.
Definition max_int : Z := 2 ^ 63 - 1.

(** Two's-complement reduction of a mathematical integer to 64 bits. *)
Definition wrap (z : Z) : Z := (z + 2 ^ 63) mod 2 ^ 64 - 2 ^ 63.

Definition add (x y : Z) : Z := wrap (x + y).
Definition sub (x y : Z) : Z := wrap (x - y).

(** The values an [int] variable can hold. *)
Definition in_int (z : Z) : Prop := min_int <= z <= max_int.

End GoInt.

(** ** Strings and the pieces of the Go library the source calls *)

Definition nl : string := String "010"%char "".
Definition esc (code : string) : string := String "027"%char code.

Fixpoint repeat_string (s : string) (n : nat) : string :=
  match n with
  | O => ""
  | S n' => s +:+ repeat_string s n'
  end.

(** [len(s)] and [len(xs)]: never negative, and the Go runtime keeps them
    within [int]. *)
Definition len (s : string) : Z := Z.of_nat (String.length s).
Definition len_slice {A} (xs : list A) : Z := Z.of_nat (length xs).

(** ** Standard output and panics *)

Inductive outcome (A : Type) : Type :=
  | Done (a : A)
  | Panic (msg : string).
Arguments Done {A} a.
Arguments Panic {A} msg.

(** What a call wrote to standard output, and how it ended. *)
Definition Console (A : Type) : Type := (string * outcome A)%type.

Definition print (s : string) : Console unit := (s, Done tt).
Definition panic {A} (msg : string) : Console A := ("", Panic msg).

#[global] Instance Console_ret : MRet Console := fun A a => ("", Done a).

#[global] Instance Console_bind : MBind Console := fun A B k m =>
  match m with
  | (out, Done a) => let '(out', r) := k a in (out +:+ out', r)
  | (out, Panic msg) => (out, Panic msg)
  end.

Definition stdout {A} (m : Console A) : string := fst m.
Definition result {A} (m : Console A) : outcome A := snd m.

(** [for i := lo; i <= hi; i++ { body(i) }].  The loops of the source run up
    to a bound that is at most the length of a slice, so [i++] stays below
    [GoInt.max_int] and is written without its wrap-around. *)
Fixpoint for_each (body : Z -> Console unit) (idx : list Z) : Console unit :=
  match idx with
  | [] => mret tt
  | i :: idx' => body i ;; for_each body idx'
  end.

(** The values [i] takes: [lo], [lo + 1], ..., [hi]; none when [hi < lo]. *)
Definition range_list (lo hi : Z) : list Z := seqZ lo (hi - lo + 1).

Definition for_range (lo hi : Z) (body : Z -> Console unit) : Console unit :=
  for_each body (range_list lo hi).

(** The bytes of several writes, one after the other. *)
Fixpoint concat_strings (ss : list string) : string :=
  match ss with
  | [] => ""
  | s :: ss' => s +:+ concat_strings ss'
  end.

(** The largest allocation the Go runtime grants on a 64-bit platform
    ([maxAlloc] of [runtime/malloc.go], 48 address bits); a larger request
    panics in [makeslice].  A process that the machine cannot give that much
    memory is stopped by the runtime before it gets here: that is a matter of
    the machine and not a result of the call, and is left out. *)
Definition maxAlloc : Z := 2 ^ 48.

(** [strings.Repeat(s, count)]: panics on a negative count, when the length
    of the result overflows [int], and when the result, which it allocates
    in one piece, is larger than [maxAlloc]. *)
Definition strings_Repeat (s : string) (count : Z) : Console string :=
  if count <? 0 then panic "strings: negative Repeat count"
  else if GoInt.max_int <? len s * count
       then panic "strings: Repeat output length overflow"
       else if maxAlloc <? len s * count
            then panic "runtime error: makeslice: len out of range"
            else mret (repeat_string s (Z.to_nat count)).

(** [strings.Split(s, sep)] for a one-byte separator, the only use in the
    source ([sep = "\n"]). *)
Fixpoint strings_Split (s : string) (sep : ascii) : list string :=
  match s with
  | EmptyString => [""]
  | String c s' =>
      if Ascii.eqb c sep then "" :: strings_Split s' sep
      else match strings_Split s' sep with
           | [] => [String c ""]
           | l :: ls => String c l :: ls
           end
  end.

(** [%d] and [%4d] of [fmt.Printf] on an [int]: decimal digits with a minus
    sign for negatives; [%4d] pads with spaces on the left up to four
    characters and never truncates. *)
Definition fmt_d (n : Z) : string := pretty n.
Definition fmt_4d (n : Z) : string :=
  let s := pretty n in repeat_string " " (4 - String.length s) +:+ s.

(** [xs[i]] on a slice: a run-time panic outside [0 <= i < len(xs)]. *)
Definition index {A} (xs : list A) (i : Z) : Console A :=
  if i <? 0 then panic "runtime error: index out of range"
  else match xs !! Z.to_nat i with
       | Some x => mret x
       | None => panic "runtime error: index out of range"
       end.

(** ** fehler.go: colors, positions and ranges *)

Definition colorReset : string := esc "[0m".
Definition colorRed : string := esc "[31m".
Definition colorYellow : string := esc "[33m".
Definition colorBlue : string := esc "[34m".
Definition colorMagenta : string := esc "[35m".
Definition colorCyan : string := esc "[36m".
Definition colorWhite : string := esc "[37m".
Definition colorBold : string := esc "[1m".
Definition colorDim : string := esc "[2m".

Definition OutputFormat : Type := Z.
Definition FormatFehler : OutputFormat := 0.
Definition FormatGCC : OutputFormat := 1.
Definition FormatMSVC : OutputFormat := 2.

Record Position : Type := mkPosition { Line : Z; Column : Z }.

Record SourceRange : Type := mkSourceRange {
  File : string;
  Start : Position;
  End_ : Position
}.

Definition NewSourceRangeSingle (file : string) (line column : Z) : SourceRange :=
  {| File := file;
     Start := {| Line := line; Column := column |};
     End_ := {| Line := line; Column := column |} |}.

Definition NewSourceRangeSpan (file : string)
    (startLine startColumn endLine endColumn : Z) : SourceRange :=
  {| File := file;
     Start := {| Line := startLine; Column := startColumn |};
     End_ := {| Line := endLine; Column := endColumn |} |}.

Definition IsMultiline (s : SourceRange) : bool :=
  negb (Line (Start s) =? Line (End_ s)).

Definition IsSingleChar (s : SourceRange) : bool :=
  (Line (Start s) =? Line (End_ s)) && (Column (Start s) =? Column (End_ s)).

Definition Length (s : SourceRange) : Z :=
  if IsMultiline s then 0
  else if Column (End_ s) >=? Column (Start s)
       then GoInt.add (GoInt.sub (Column (End_ s)) (Column (Start s))) 1
       else 1.

(** ** fehler.go: severities and diagnostics *)

(** [type Severity int] with six named constants; any other [int] is also a
    [Severity], which is what the [default] branches are for. *)
Definition Severity : Type := Z.
Definition SeverityFatal : Severity := 0.
Definition SeverityError : Severity := 1.
Definition SeverityWarning : Severity := 2.
Definition SeverityNote : Severity := 3.
Definition SeverityTodo : Severity := 4.
Definition SeverityUnimplemented : Severity := 5.

Definition Color (s : Severity) : string :=
  match s with
  | 0 | 1 => colorRed
  | 2 => colorYellow
  | 3 => colorBlue
  | 4 => colorMagenta
  | 5 => colorCyan
  | _ => ""
  end.

Definition Label (s : Severity) : string :=
  match s with
  | 0 => "fatal"
  | 1 => "error"
  | 2 => "warning"
  | 3 => "note"
  | 4 => "todo"
  | 5 => "unimplemented"
  | _ => "unknown"
  end.

Record Diagnostic : Type := mkDiagnostic {
  Severity_ : Severity;
  Message : string;
  Range : option SourceRange;
  Help : option string;
  Code : option string;
  Url : option string
}.

Definition NewDiagnostic (severity : Severity) (message : string) : Diagnostic :=
  {| Severity_ := severity; Message := message;
     Range := None; Help := None; Code := None; Url := None |}.

(** The [With...] methods set one field of the receiver and return it. *)
Definition WithRange (d : Diagnostic) (r : SourceRange) : Diagnostic :=
  {| Severity_ := Severity_ d; Message := Message d; Range := Some r;
     Help := Help d; Code := Code d; Url := Url d |}.

Definition WithLocation (d : Diagnostic) (file : string) (line column : Z) : Diagnostic :=
  let r := NewSourceRangeSingle file line column in
  {| Severity_ := Severity_ d; Message := Message d; Range := Some r;
     Help := Help d; Code := Code d; Url := Url d |}.

Definition WithHelp (d : Diagnostic) (help : string) : Diagnostic :=
  {| Severity_ := Severity_ d; Message := Message d; Range := Range d;
     Help := Some help; Code := Code d; Url := Url d |}.

Definition WithCode (d : Diagnostic) (code : string) : Diagnostic :=
  {| Severity_ := Severity_ d; Message := Message d; Range := Range d;
     Help := Help d; Code := Some code; Url := Url d |}.

Definition WithUrl (d : Diagnostic) (url : string) : Diagnostic :=
  {| Severity_ := Severity_ d; Message := Message d; Range := Range d;
     Help := Help d; Code := Code d; Url := Some url |}.

Definition NewDiagnosticWithLocation (severity : Severity) (message file : string)
    (line column : Z) : Diagnostic :=
  WithLocation (NewDiagnostic severity message) file line column.

Definition NewDiagnosticWithRange (severity : Severity) (message file : string)
    (startLine startColumn endLine endColumn : Z) : Diagnostic :=
  WithRange (NewDiagnostic severity message)
            (NewSourceRangeSpan file startLine startColumn endLine endColumn).

(** ** fehler.go: the reporter *)

Record ErrorReporter : Type := mkErrorReporter {
  Sources : gmap string string;
  Format : OutputFormat
}.

Definition NewErrorReporter : ErrorReporter :=
  {| Sources := ∅; Format := FormatFehler |}.

Definition WithFormat (e : ErrorReporter) (format : OutputFormat) : ErrorReporter :=
  {| Sources := Sources e; Format := format |}.

Definition AddSource (e : ErrorReporter) (filename content : string) : ErrorReporter :=
  {| Sources := <[filename := content]> (Sources e); Format := Format e |}.

Definition printUnderline (e : ErrorReporter) (r : SourceRange)
    (lineNum lineNumWidth : Z) (color : string) : Console unit :=
  print ("  " +:+ color);;
  pad ← strings_Repeat " " (GoInt.add lineNumWidth 1); print pad;;
  print "  ";;
  (if IsMultiline r then
     if lineNum =? Line (Start r) then
       sp ← strings_Repeat " " (GoInt.sub (Column (Start r)) 1); print sp;;
       print "~";;
       ti ← strings_Repeat "~" (GoInt.sub 80 (Column (Start r))); print ti
     else if lineNum =? Line (End_ r) then
       ti ← strings_Repeat "~" (Column (End_ r)); print ti
     else if (lineNum >? Line (Start r)) && (lineNum <? Line (End_ r)) then
       ti ← strings_Repeat "~" 80; print ti
     else mret tt
   else
     sp ← strings_Repeat " " (GoInt.sub (Column (Start r)) 1); print sp;;
     if IsSingleChar r then print "^"
     else ti ← strings_Repeat "~" (Length r); print ti);;
  print (colorReset +:+ nl).

(** The two bounds of the loop of [printSourceSnippet], named as its local
    variables. *)
Definition contextStart (r : SourceRange) : Z :=
  if Line (Start r) >? 2 then GoInt.sub (Line (Start r)) 2 else 1.

Definition contextEnd (r : SourceRange) (lines : list string) : Z :=
  let contextEnd := GoInt.add (Line (Start r)) 2 in
  let contextEnd :=
    if IsMultiline r then GoInt.add (Line (End_ r)) 2 else contextEnd in
  if contextEnd >? len_slice lines then len_slice lines else contextEnd.

(** The body of that loop. *)
Definition snippetLine (e : ErrorReporter) (r : SourceRange) (color : string)
    (lines : list string) (currentLine : Z) : Console unit :=
  line ← index lines (GoInt.sub currentLine 1);
  let lineNumWidth := 4 in
  let isErrorLine :=
    (currentLine >=? Line (Start r)) && (currentLine <=? Line (End_ r)) in
  if isErrorLine then
    print ("  " +:+ colorRed +:+ colorBold +:+ fmt_4d currentLine +:+ " |"
           +:+ colorReset +:+ " " +:+ line +:+ nl);;
    printUnderline e r currentLine lineNumWidth color
  else
    print ("  " +:+ colorDim +:+ fmt_4d currentLine +:+ " |"
           +:+ colorReset +:+ " " +:+ line +:+ nl).

Definition printSourceSnippet (e : ErrorReporter) (r : SourceRange)
    (color : string) : Console unit :=
  match Sources e !! File r with
  | None => mret tt
  | Some source =>
      let lines := strings_Split source "010" in
      for_range (contextStart r) (contextEnd r lines) (snippetLine e r color lines)
  end.

Definition printFehler (e : ErrorReporter) (diagnostic : Diagnostic) : Console unit :=
  match Code diagnostic with
  | Some code =>
      print (Color (Severity_ diagnostic) +:+ colorBold
             +:+ Label (Severity_ diagnostic) +:+ "[" +:+ code +:+ "]"
             +:+ colorReset +:+ ": " +:+ Message diagnostic +:+ nl)
  | None =>
      print (Color (Severity_ diagnostic) +:+ colorBold
             +:+ Label (Severity_ diagnostic)
             +:+ colorReset +:+ ": " +:+ Message diagnostic +:+ nl)
  end;;
  match Range diagnostic with
  | Some r =>
      print ("  " +:+ colorCyan +:+ colorBold +:+ File r +:+ ":"
             +:+ fmt_d (Line (Start r)) +:+ ":" +:+ fmt_d (Column (Start r))
             +:+ colorReset +:+ nl);;
      let color := Color (Severity_ diagnostic) in
      printSourceSnippet e r color
  | None => mret tt
  end;;
  match Help diagnostic with
  | Some help =>
      print ("  " +:+ colorCyan +:+ colorBold +:+ "help" +:+ colorReset
             +:+ ": " +:+ help +:+ nl)
  | None => mret tt
  end;;
  match Url diagnostic with
  | Some url =>
      print ("  " +:+ colorCyan +:+ colorBold +:+ "see" +:+ colorReset
             +:+ ": " +:+ url +:+ nl)
  | None => mret tt
  end;;
  print nl.

Definition printGcc (e : ErrorReporter) (diagnostic : Diagnostic) : Console unit :=
  let color := Color (Severity_ diagnostic) in
  match Range diagnostic with
  | Some r =>
      print (colorBold +:+ File r +:+ ":" +:+ fmt_d (Line (Start r)) +:+ ":"
             +:+ fmt_d (Column (Start r)) +:+ ": " +:+ color
             +:+ Label (Severity_ diagnostic) +:+ ": " +:+ colorReset
             +:+ colorBold +:+ Message diagnostic +:+ colorReset +:+ nl)
  | None =>
      print (colorBold +:+ color +:+ Label (Severity_ diagnostic) +:+ ": "
             +:+ colorReset +:+ colorBold +:+ Message diagnostic
             +:+ colorReset +:+ nl)
  end.

Definition printMsvc (e : ErrorReporter) (diagnostic : Diagnostic) : Console unit :=
  match Range diagnostic with
  | Some r =>
      let code := "unknown" in
      let code := match Code diagnostic with Some c => c | None => code end in
      print (File r +:+ "(" +:+ fmt_d (Line (Start r)) +:+ ", "
             +:+ fmt_d (Column (Start r)) +:+ "): "
             +:+ Label (Severity_ diagnostic) +:+ " " +:+ code +:+ ": "
             +:+ Message diagnostic +:+ nl)
  | None =>
      print (Label (Severity_ diagnostic) +:+ ": " +:+ Message diagnostic +:+ nl)
  end.

Definition Report (e : ErrorReporter) (diagnostic : Diagnostic) : Console unit :=
  match Format e with
  | 0 => printFehler e diagnostic
  | 1 => printGcc e diagnostic
  | 2 => printMsvc e diagnostic
  | _ => mret tt
  end.

Fixpoint ReportMany (e : ErrorReporter) (diagnostics : list Diagnostic) : Console unit :=
  match diagnostics with
  | [] => mret tt
  | diagnostic :: rest => Report e diagnostic;; ReportMany e rest
  end.

(** ** sarif.go: the structured report *)

Record SarifMessage : Type := mkSarifMessage { Text : string }.

Record SarifConfiguration : Type := mkSarifConfiguration { Level : string }.

Record SarifRule : Type := mkSarifRule {
  Rule_ID : string;
  Rule_ShortDescription : SarifMessage;
  Rule_DefaultConfiguration : option SarifConfiguration;
  Rule_HelpURI : string
}.

Record SarifRegion : Type := mkSarifRegion {
  StartLine : Z;
  StartColumn : Z;
  EndLine : Z;
  EndColumn : Z
}.

Record SarifArtifactLocation : Type := mkSarifArtifactLocation { URI : string }.

Record SarifPhysicalLocation : Type := mkSarifPhysicalLocation {
  ArtifactLocation : SarifArtifactLocation;
  Region : SarifRegion
}.

Record SarifLocation : Type := mkSarifLocation {
  PhysicalLocation : SarifPhysicalLocation
}.

Record SarifResult : Type := mkSarifResult {
  Result_Message : SarifMessage;
  Result_Level : string;
  Result_RuleID : option string;
  Result_Locations : list SarifLocation;
  Result_Kind : string
}.

Record SarifDriver : Type := mkSarifDriver {
  Driver_Name : string;
  Driver_Version : string;
  Driver_InformationURI : string;
  Driver_Rules : list SarifRule
}.

Record SarifTool : Type := mkSarifTool { Driver : SarifDriver }.

Record SarifRun : Type := mkSarifRun {
  Tool : SarifTool;
  Results : list SarifResult
}.

Record SarifReport : Type := mkSarifReport {
  Report_Version : string;
  Report_Schema : string;
  Runs : list SarifRun
}.

Definition sarifLevel (sev : Severity) : string :=
  match sev with
  | 0 | 1 => "error"
  | 2 => "warning"
  | 3 => "note"
  | 4 | 5 => "none"
  | _ => "none"
  end.

(** [EmitSarif] is three loops, the construction of the report and one call
    of the JSON encoder.  Each part is a definition of its own. *)

(** The rule the first loop stores for a diagnostic [d] that carries [code]. *)
Definition ruleOf (code : string) (d : Diagnostic) : SarifRule :=
  {| Rule_ID := code;
     Rule_ShortDescription := {| Text := Message d |};
     Rule_DefaultConfiguration := Some {| Level := sarifLevel (Severity_ d) |};
     Rule_HelpURI := match Url d with Some url => url | None => "" end |}.

(** First loop: fill [ruleMap], keeping the entry a code already has. *)
Fixpoint collectRules (diagnostics : list Diagnostic)
    (ruleMap : gmap string SarifRule) : gmap string SarifRule :=
  match diagnostics with
  | [] => ruleMap
  | d :: rest =>
      let ruleMap :=
        match Code d with
        | Some code =>
            match ruleMap !! code with
            | Some _ => ruleMap
            | None => <[code := ruleOf code d]> ruleMap
            end
        | None => ruleMap
        end in
      collectRules rest ruleMap
  end.

(** The entry the third loop appends for a diagnostic. *)
Definition resultOf (d : Diagnostic) : SarifResult :=
  let res := {| Result_Message := {| Text := Message d |};
                Result_Level := sarifLevel (Severity_ d);
                Result_RuleID := None;
                Result_Locations := [];
                Result_Kind := "fail" |} in
  let res := match Code d with
             | Some _ =>
                 {| Result_Message := Result_Message res;
                    Result_Level := Result_Level res;
                    Result_RuleID := Code d;
                    Result_Locations := Result_Locations res;
                    Result_Kind := Result_Kind res |}
             | None => res
             end in
  match Range d with
  | Some r =>
      let loc :=
        {| PhysicalLocation :=
             {| ArtifactLocation := {| URI := File r |};
                Region := {| StartLine := Line (Start r);
                             StartColumn := Column (Start r);
                             EndLine := Line (End_ r);
                             EndColumn := Column (End_ r) |} |} |} in
      {| Result_Message := Result_Message res;
         Result_Level := Result_Level res;
         Result_RuleID := Result_RuleID res;
         Result_Locations := [loc];
         Result_Kind := Result_Kind res |}
  | None => res
  end.

(** Third loop: one result per diagnostic, appended in order. *)
Fixpoint collectResults (diagnostics : list Diagnostic)
    (results : list SarifResult) : list SarifResult :=
  match diagnostics with
  | [] => results
  | d :: rest => collectResults rest (results ++ [resultOf d])
  end.

Definition sarifVersion : string := "2.1.0".
Definition sarifSchema : string := "https://json.schemastore.org/sarif-2.1.0.json".

Definition buildReport (rules : list SarifRule) (results : list SarifResult)
    : SarifReport :=
  {| Report_Version := sarifVersion;
     Report_Schema := sarifSchema;
     Runs := [ {| Tool := {| Driver :=
                    {| Driver_Name := "fehler";
                       Driver_Version := "0.5.0";
                       Driver_InformationURI := "https://github.com/ciathefed/fehler";
                       Driver_Rules := rules |} |};
                  Results := results |} ] |}.

(** Second loop: [for _, r := range ruleMap] appends the values of the map in
    the order Go happens to visit them, which the language leaves open.  So
    [EmitSarif diagnostics report] is a relation: [report] is a report the
    function can pass to [json.Encoder.Encode], for some order of the rules.
    The encoding and the writer belong to the Go library. *)
Definition EmitSarif (diagnostics : list Diagnostic) (report : SarifReport) : Prop :=
  exists rules : list SarifRule,
    rules ≡ₚ (map_to_list (collectRules diagnostics ∅)).*2 /\
    report = buildReport rules (collectResults diagnostics []).

(** One order among them, to run the function. *)
Definition EmitSarif_run (diagnostics : list Diagnostic) : SarifReport :=
  buildReport (map_to_list (collectRules diagnostics ∅)).*2
              (collectResults diagnostics []).

(** ** Which panics a call can end with *)

(** [panics_with P m]: if [m] ends with a panic, its message satisfies [P]. *)
Definition panics_with {A} (P : string -> Prop) (m : Console A) : Prop :=
  match result m with
  | Done _ => True
  | Panic msg => P msg
  end.

(** ** fehler.go: diagnostics behind pointers

    [NewDiagnostic] returns a [*Diagnostic] and every [With...] method
    assigns to a field of its receiver and returns the receiver.  [Ptr] reads
    the same methods on a store of diagnostics; a method called through a
    pointer that holds nothing is a nil dereference ([None]). *)
Module Ptr.

Definition NewDiagnostic (h : gmap positive Diagnostic) (severity : Severity)
    (message : string) : gmap positive Diagnostic * positive :=
  let p := fresh (dom h) in
  (<[p := NewDiagnostic severity message]> h, p).

(** [d.field = v; return d] for the assignment [set]. *)
Definition assign (set : Diagnostic -> Diagnostic)
    (h : gmap positive Diagnostic) (d : positive)
    : option (gmap positive Diagnostic * positive) :=
  match h !! d with
  | Some v => Some (<[d := set v]> h, d)
  | None => None
  end.

Definition WithRange h d (r : SourceRange) := assign (fun v => WithRange v r) h d.
Definition WithLocation h d (file : string) (line column : Z) :=
  assign (fun v => WithLocation v file line column) h d.
Definition WithHelp h d (help : string) := assign (fun v => WithHelp v help) h d.
Definition WithCode h d (code : string) := assign (fun v => WithCode v code) h d.
Definition WithUrl h d (url : string) := assign (fun v => WithUrl v url) h d.

End Ptr.

(** ** The example of the README

    Its quick start registers this source as [example.go] and reports this
    diagnostic. *)
Definition example_source : string :=
  "package main" +:+ nl +:+
  nl +:+
  "func main() {" +:+ nl +:+
  "    x := 42" +:+ nl +:+
  "    y := x + " +:+ String "034"%char "hello" +:+ String "034"%char " // Error here!" +:+ nl +:+
  "    println(y)" +:+ nl +:+
  "}".

Definition example_reporter : ErrorReporter :=
  AddSource NewErrorReporter "example.go" example_source.

Definition example_diagnostic : Diagnostic :=
  WithUrl
    (WithCode
       (WithHelp
          (WithRange
             (NewDiagnostic SeverityError "type mismatch: cannot add int and string")
             (NewSourceRangeSpan "example.go" 5 14 5 20))
          "consider converting the string using strconv.Itoa or similar")
       "E0001")
    "https://docs.example.org/errors/E0001".

(** * Properties *)

(** ** Arithmetic of [int] *)

Lemma wrap_in_int (z : Z) : GoInt.in_int z -> GoInt.wrap z = z.
Proof.
  unfold GoInt.in_int, GoInt.min_int, GoInt.max_int, GoInt.wrap. intros Hz.
  rewrite Z.mod_small; lia.
Qed.

Lemma add_no_overflow (x y : Z) : GoInt.in_int (x + y) -> GoInt.add x y = x + y.
Proof. apply wrap_in_int. Qed.

Lemma sub_no_overflow (x y : Z) : GoInt.in_int (x - y) -> GoInt.sub x y = x - y.
Proof. apply wrap_in_int. Qed.

(** ** Strings *)

Lemma append_cons (c : ascii) (s1 s2 : string) :
  String c s1 +:+ s2 = String c (s1 +:+ s2).
Proof. reflexivity. Qed.

Lemma append_nil_l (s : string) : "" +:+ s = s.
Proof. reflexivity. Qed.

Lemma append_assoc (s1 s2 s3 : string) : (s1 +:+ s2) +:+ s3 = s1 +:+ (s2 +:+ s3).
Proof.
  induction s1 as [|c s1 IH]; [reflexivity|].
  rewrite !append_cons. now rewrite IH.
Qed.

Lemma append_nil_r (s : string) : s +:+ "" = s.
Proof.
  induction s as [|c s IH]; [reflexivity|].
  rewrite append_cons. now rewrite IH.
Qed.

Lemma length_append (s1 s2 : string) :
  String.length (s1 +:+ s2) = (String.length s1 + String.length s2)%nat.
Proof.
  induction s1 as [|c s1 IH]; [reflexivity|].
  rewrite append_cons. simpl. now rewrite IH.
Qed.

Lemma repeat_string_snoc (s : string) (n : nat) :
  repeat_string s (S n) = repeat_string s n +:+ s.
Proof.
  induction n as [|n IH].
  - simpl. now rewrite append_nil_r.
  - change (repeat_string s (S (S n))) with (s +:+ repeat_string s (S n)).
    rewrite IH at 1. change (repeat_string s (S n)) with (s +:+ repeat_string s n).
    symmetry. apply append_assoc.
Qed.

Lemma length_repeat_char (c : ascii) (n : nat) :
  String.length (repeat_string (String c "") n) = n.
Proof.
  induction n as [|n IH]; [reflexivity|].
  change (repeat_string (String c "") (S n))
    with (String c (repeat_string (String c "") n)).
  simpl. now rewrite IH.
Qed.

(** ** The [Console] monad *)

Lemma bind_print {B} (s : string) (k : unit -> Console B) :
  (print s ≫= k) = (s +:+ stdout (k tt), result (k tt)).
Proof. unfold mbind, Console_bind, print, stdout, result. now destruct (k tt). Qed.

Lemma bind_ret {A B} (a : A) (k : A -> Console B) : (mret a ≫= k) = k a.
Proof. unfold mbind, mret, Console_bind, Console_ret. now destruct (k a). Qed.

Lemma bind_panic {A B} (msg : string) (k : A -> Console B) :
  (panic msg ≫= k) = panic msg.
Proof. reflexivity. Qed.

Lemma bind_done {A B} (out : string) (a : A) (k : A -> Console B) :
  ((out, Done a) ≫= k) = (out +:+ stdout (k a), result (k a)).
Proof. unfold mbind, Console_bind, stdout, result. now destruct (k a). Qed.

Lemma bind_assoc {A B C} (m : Console A) (k : A -> Console B) (h : B -> Console C) :
  ((m ≫= k) ≫= h) = (m ≫= fun a => k a ≫= h).
Proof.
  destruct m as [out [a|msg]]; [|reflexivity].
  unfold mbind, Console_bind. destruct (k a) as [out' [b|msg]]; [|reflexivity].
  destruct (h b) as [out'' r]. now rewrite append_assoc.
Qed.

Lemma strings_Repeat_char (c : ascii) (count : Z) :
  0 <= count <= maxAlloc ->
  strings_Repeat (String c "") count
  = mret (repeat_string (String c "") (Z.to_nat count)).
Proof.
  intros Hc. unfold strings_Repeat, len. simpl String.length.
  destruct (Z.ltb_spec count 0) as [?|_]; [lia|].
  destruct (Z.ltb_spec GoInt.max_int (Z.of_nat 1 * count)) as [Hover|_].
  { revert Hc Hover. unfold maxAlloc, GoInt.max_int. lia. }
  destruct (Z.ltb_spec maxAlloc (Z.of_nat 1 * count)) as [?|_]; [lia|].
  reflexivity.
Qed.

Lemma strings_Repeat_too_long (c : ascii) (count : Z) :
  maxAlloc < count <= GoInt.max_int ->
  strings_Repeat (String c "") count
  = panic "runtime error: makeslice: len out of range".
Proof.
  intros Hc. unfold strings_Repeat, len. simpl String.length.
  destruct (Z.ltb_spec count 0) as [Hneg|_].
  { revert Hc Hneg. unfold maxAlloc. lia. }
  destruct (Z.ltb_spec GoInt.max_int (Z.of_nat 1 * count)) as [?|_]; [lia|].
  destruct (Z.ltb_spec maxAlloc (Z.of_nat 1 * count)) as [_|?]; [reflexivity | lia].
Qed.

Lemma strings_Repeat_negative (s : string) (count : Z) :
  count < 0 -> strings_Repeat s count = panic "strings: negative Repeat count".
Proof.
  intros Hc. unfold strings_Repeat.
  destruct (Z.ltb_spec count 0) as [_|?]; [reflexivity | lia].
Qed.

(** ** Ranges *)

Lemma Position_eq (p q : Position) :
  p = q <-> Line p = Line q /\ Column p = Column q.
Proof.
  destruct p as [pl pc], q as [ql qc]; simpl. split.
  - intros [= -> ->]. tauto.
  - intros [-> ->]. reflexivity.
Qed.

Lemma IsMultiline_true (r : SourceRange) :
  IsMultiline r = true <-> Line (Start r) <> Line (End_ r).
Proof.
  unfold IsMultiline. rewrite negb_true_iff. apply Z.eqb_neq.
Qed.

Lemma IsMultiline_false (r : SourceRange) :
  IsMultiline r = false <-> Line (Start r) = Line (End_ r).
Proof.
  unfold IsMultiline. rewrite negb_false_iff. apply Z.eqb_eq.
Qed.

Lemma IsSingleChar_true (r : SourceRange) :
  IsSingleChar r = true <-> Start r = End_ r.
Proof.
  unfold IsSingleChar. rewrite andb_true_iff, !Z.eqb_eq.
  symmetry. apply Position_eq.
Qed.

Lemma Length_single_line (r : SourceRange) :
  IsMultiline r = false ->
  Column (Start r) <= Column (End_ r) ->
  GoInt.in_int (Column (End_ r) - Column (Start r) + 1) ->
  Length r = Column (End_ r) - Column (Start r) + 1.
Proof.
  intros Hml Hle Hin. unfold Length. rewrite Hml.
  destruct (Z.geb_spec (Column (End_ r)) (Column (Start r))) as [_|?]; [|lia].
  rewrite sub_no_overflow.
  - now apply add_no_overflow.
  - revert Hin. unfold GoInt.in_int, GoInt.min_int, GoInt.max_int. lia.
Qed.

(** C10.  For every range: [IsSingleChar] holds exactly when start and end
    are the same position (line and column), [IsMultiline] exactly when the
    two lines differ, and the two never hold together.  On a single-line
    range that is not a single character and has [end.column >=
    start.column], [Length] is [end.column - start.column + 1], provided
    that number is an [int] at all (it always is for columns from 1 up);
    columns 5..15 on one line give 11. *)
Theorem range_predicates (r : SourceRange) :
  (IsSingleChar r = true <-> Start r = End_ r) /\
  (IsMultiline r = true <-> Line (Start r) <> Line (End_ r)) /\
  ~ (IsSingleChar r = true /\ IsMultiline r = true) /\
  (IsMultiline r = false -> IsSingleChar r = false ->
   Column (End_ r) >= Column (Start r) ->
   GoInt.in_int (Column (End_ r) - Column (Start r) + 1) ->
   Length r = Column (End_ r) - Column (Start r) + 1) /\
  Length (NewSourceRangeSpan "test.go" 10 5 10 15) = 11.
Proof.
  split; [apply IsSingleChar_true|].
  split; [apply IsMultiline_true|].
  split.
  - rewrite IsSingleChar_true, IsMultiline_true. intros [Heq Hne].
    apply Hne. now rewrite Heq.
  - split; [|reflexivity].
    intros Hml _ Hge Hin. apply Length_single_line; [assumption | lia | assumption].
Qed.

Lemma range_predicates_witness :
  Length (NewSourceRangeSpan "hello.go" 9 5 9 8) = 8 - 5 + 1.
Proof.
  apply (proj1 (proj2 (proj2 (proj2
           (range_predicates (NewSourceRangeSpan "hello.go" 9 5 9 8)))))).
  - reflexivity.
  - reflexivity.
  - simpl. lia.
  - unfold GoInt.in_int, GoInt.min_int, GoInt.max_int. simpl. lia.
Defined.

(** ** The underline *)

Ltac console :=
  repeat (first [ rewrite bind_assoc | rewrite bind_print | rewrite bind_ret
                | rewrite bind_panic | rewrite bind_done ];
          unfold stdout, result; cbv beta; cbn [fst snd]);
  unfold print, panic; cbn [fst snd].

Ltac int_bounds :=
  unfold GoInt.in_int, GoInt.min_int, GoInt.max_int, maxAlloc in *; lia.

Lemma wrap_range (z : Z) : GoInt.in_int (GoInt.wrap z).
Proof.
  unfold GoInt.in_int, GoInt.min_int, GoInt.max_int, GoInt.wrap.
  pose proof (Z.mod_pos_bound (z + 2 ^ 63) (2 ^ 64)). lia.
Qed.

Lemma gutter_pad : strings_Repeat " " (GoInt.add 4 1) = mret "     ".
Proof. reflexivity. Qed.

Lemma Length_positive (r : SourceRange) :
  IsMultiline r = false ->
  1 <= Column (Start r) -> Column (End_ r) <= GoInt.max_int ->
  1 <= Length r <= GoInt.max_int.
Proof.
  intros Hml Hs He.
  destruct (Z.le_gt_cases (Column (Start r)) (Column (End_ r))) as [Hle|Hgt].
  - rewrite Length_single_line by (try assumption; int_bounds). lia.
  - unfold Length. rewrite Hml.
    destruct (Z.geb_spec (Column (End_ r)) (Column (Start r))); [lia|].
    int_bounds.
Qed.

Lemma Length_within_alloc (r : SourceRange) :
  IsMultiline r = false ->
  1 <= Column (Start r) -> Column (End_ r) <= maxAlloc ->
  1 <= Length r <= maxAlloc.
Proof.
  intros Hml Hs He.
  destruct (Z.le_gt_cases (Column (Start r)) (Column (End_ r))) as [Hle|Hgt].
  - rewrite Length_single_line by (try assumption; int_bounds). lia.
  - unfold Length. rewrite Hml.
    destruct (Z.geb_spec (Column (End_ r)) (Column (Start r))); [lia|].
    int_bounds.
Qed.

Lemma tilde_cons (n : Z) :
  0 <= n -> "~" +:+ repeat_string "~" (Z.to_nat n) = repeat_string "~" (Z.to_nat (n + 1)).
Proof.
  intros Hn. replace (Z.to_nat (n + 1)) with (S (Z.to_nat n)) by lia. reflexivity.
Qed.

Section Underline.

Variable e : ErrorReporter.
Variable r : SourceRange.
Variable color : string.

(** Every underline row starts with two spaces, the color, and the width of
    the line-number gutter. *)

Lemma underline_single_line (lineNum : Z) :
  IsMultiline r = false ->
  1 <= Column (Start r) <= maxAlloc ->
  Column (End_ r) <= maxAlloc ->
  printUnderline e r lineNum 4 color =
    ("  " +:+ color +:+ "     " +:+ "  " +:+ repeat_string " " (Z.to_nat (Column (Start r) - 1))
     +:+ (if IsSingleChar r then "^"
          else repeat_string "~" (Z.to_nat (Length r)))
     +:+ colorReset +:+ nl, Done tt).
Proof.
  intros Hml Hs He. unfold printUnderline.
  rewrite Hml, gutter_pad.
  rewrite sub_no_overflow by int_bounds.
  rewrite (strings_Repeat_char " ") by lia.
  destruct (IsSingleChar r).
  - console. now rewrite ?append_assoc.
  - pose proof (Length_within_alloc r Hml (proj1 Hs) He) as HL.
    rewrite (strings_Repeat_char "~") by lia.
    console. now rewrite ?append_assoc.
Qed.

Lemma underline_first_row :
  IsMultiline r = true ->
  1 <= Column (Start r) <= 80 ->
  printUnderline e r (Line (Start r)) 4 color =
    ("  " +:+ color +:+ "     " +:+ "  " +:+ repeat_string " " (Z.to_nat (Column (Start r) - 1))
     +:+ repeat_string "~" (Z.to_nat (81 - Column (Start r)))
     +:+ colorReset +:+ nl, Done tt).
Proof.
  intros Hml Hs. unfold printUnderline.
  rewrite Hml, gutter_pad, Z.eqb_refl.
  rewrite !sub_no_overflow by int_bounds.
  rewrite (strings_Repeat_char " "), (strings_Repeat_char "~") by int_bounds.
  console. rewrite tilde_cons by lia.
  replace (80 - Column (Start r) + 1) with (81 - Column (Start r)) by lia.
  now rewrite ?append_assoc.
Qed.

Lemma underline_inner_row (lineNum : Z) :
  IsMultiline r = true ->
  Line (Start r) < lineNum < Line (End_ r) ->
  printUnderline e r lineNum 4 color =
    ("  " +:+ color +:+ "     " +:+ "  " +:+ repeat_string "~" 80 +:+ colorReset +:+ nl, Done tt).
Proof.
  intros Hml Hin. unfold printUnderline. rewrite Hml, gutter_pad.
  destruct (Z.eqb_spec lineNum (Line (Start r))) as [?|_]; [lia|].
  destruct (Z.eqb_spec lineNum (Line (End_ r))) as [?|_]; [lia|].
  destruct (Z.gtb_spec lineNum (Line (Start r))) as [_|?]; [|lia].
  destruct (Z.ltb_spec lineNum (Line (End_ r))) as [_|?]; [|lia].
  cbn [andb]. rewrite (strings_Repeat_char "~") by int_bounds.
  console. now rewrite ?append_assoc.
Qed.

Lemma underline_last_row :
  IsMultiline r = true ->
  0 <= Column (End_ r) <= maxAlloc ->
  printUnderline e r (Line (End_ r)) 4 color =
    ("  " +:+ color +:+ "     " +:+ "  " +:+ repeat_string "~" (Z.to_nat (Column (End_ r)))
     +:+ colorReset +:+ nl, Done tt).
Proof.
  intros Hml He. unfold printUnderline. rewrite Hml, gutter_pad.
  pose proof (proj1 (IsMultiline_true r) Hml) as Hne.
  destruct (Z.eqb_spec (Line (End_ r)) (Line (Start r))) as [?|_]; [congruence|].
  rewrite Z.eqb_refl.
  rewrite (strings_Repeat_char "~") by lia.
  console. now rewrite ?append_assoc.
Qed.

(** Past column 80 the first row of a multi-line range asks [strings.Repeat]
    for a negative number of tildes: the program stops there, after the
    gutter, the spaces and one tilde have been written. *)
Lemma underline_first_row_panics :
  IsMultiline r = true ->
  80 < Column (Start r) <= maxAlloc ->
  printUnderline e r (Line (Start r)) 4 color =
    ("  " +:+ color +:+ "     " +:+ "  " +:+ repeat_string " " (Z.to_nat (Column (Start r) - 1)) +:+ "~",
     Panic "strings: negative Repeat count").
Proof.
  intros Hml Hs. unfold printUnderline.
  rewrite Hml, gutter_pad, Z.eqb_refl.
  rewrite !sub_no_overflow by int_bounds.
  rewrite (strings_Repeat_char " ") by lia.
  rewrite (strings_Repeat_negative "~") by lia.
  console. now rewrite ?append_assoc.
Qed.

(** A start column past the allocation limit stops the underline of a
    single-line range at the spaces: [strings.Repeat] cannot allocate them. *)
Lemma underline_too_long (lineNum : Z) :
  IsMultiline r = false ->
  maxAlloc + 1 < Column (Start r) <= GoInt.max_int ->
  printUnderline e r lineNum 4 color =
    ("  " +:+ color +:+ "     " +:+ "  ",
     Panic "runtime error: makeslice: len out of range").
Proof.
  intros Hml Hs. unfold printUnderline.
  rewrite Hml, gutter_pad.
  rewrite sub_no_overflow by int_bounds.
  rewrite (strings_Repeat_too_long " ") by lia.
  console. now rewrite ?append_assoc.
Qed.

(** Off that one row, and with columns up to the allocation limit, the
    underline always comes back. *)
Lemma underline_total (lineNum : Z) :
  1 <= Column (Start r) <= maxAlloc ->
  0 <= Column (End_ r) <= maxAlloc ->
  (IsMultiline r = true -> lineNum = Line (Start r) -> Column (Start r) <= 80) ->
  exists out : string, printUnderline e r lineNum 4 color = (out, Done tt).
Proof.
  intros Hs He Hfirst. destruct (IsMultiline r) eqn:Hml.
  - destruct (Z.eq_dec lineNum (Line (Start r))) as [->|Hne].
    + eexists. apply underline_first_row; [assumption|]. split; [lia | auto].
    + unfold printUnderline. rewrite Hml, gutter_pad.
      destruct (Z.eqb_spec lineNum (Line (Start r))) as [?|_]; [lia|].
      destruct (lineNum =? Line (End_ r)).
      * rewrite (strings_Repeat_char "~") by lia. console. eauto.
      * destruct ((lineNum >? Line (Start r)) && (lineNum <? Line (End_ r))).
        -- rewrite (strings_Repeat_char "~") by int_bounds. console. eauto.
        -- console. eauto.
  - eexists. apply underline_single_line; [assumption | lia | lia].
Qed.

End Underline.

(** C4.  On a single-line range (columns counted from 1 and no larger than
    the allocation limit [maxAlloc], past which [strings.Repeat] cannot
    build the row) the underline row is the gutter, [start.column - 1] spaces, and then one
    caret when the range is a single character, or [Length] tildes when it is
    not; the row ends with the color reset.  For 5:14-5:20 that is 13 spaces
    and 7 tildes, so the tildes start at column 14. *)
Theorem printUnderline_single_line :
  (forall (e : ErrorReporter) (r : SourceRange) (lineNum : Z) (color : string),
     IsMultiline r = false ->
     1 <= Column (Start r) <= maxAlloc ->
     Column (End_ r) <= maxAlloc ->
     printUnderline e r lineNum 4 color =
       ("  " +:+ color +:+ "     " +:+ "  "
        +:+ repeat_string " " (Z.to_nat (Column (Start r) - 1))
        +:+ (if IsSingleChar r then "^"
             else repeat_string "~" (Z.to_nat (Length r)))
        +:+ colorReset +:+ nl, Done tt)) /\
  (forall (e : ErrorReporter) (color : string),
     printUnderline e (NewSourceRangeSpan "example.go" 5 14 5 20) 5 4 color =
       ("  " +:+ color +:+ "     " +:+ "  "
        +:+ "             " +:+ "~~~~~~~" +:+ colorReset +:+ nl, Done tt)).
Proof.
  split.
  - intros e r lineNum color. apply underline_single_line.
  - intros e color.
    apply (underline_single_line e (NewSourceRangeSpan "example.go" 5 14 5 20)).
    + reflexivity.
    + simpl. int_bounds.
    + simpl. int_bounds.
Qed.

Lemma printUnderline_single_line_witness :
  printUnderline NewErrorReporter (NewSourceRangeSingle "hello.go" 10 5) 10 4 colorRed
  = ("  " +:+ colorRed +:+ "     " +:+ "  " +:+ "    " +:+ "^"
     +:+ colorReset +:+ nl, Done tt).
Proof.
  apply (proj1 printUnderline_single_line NewErrorReporter
           (NewSourceRangeSingle "hello.go" 10 5) 10 colorRed).
  - reflexivity.
  - unfold maxAlloc. simpl. lia.
  - unfold maxAlloc. simpl. lia.
Defined.

(** C3.  On a multi-line range whose start column is between 1 and 80 (and
    whose end column is between 1 and the allocation limit [maxAlloc], past
    which [strings.Repeat] cannot build the row), the underline row after the
    gutter is: under the first line, [start.column - 1] spaces and
    [81 - start.column] tildes (columns [start.column] to 80); under a line
    strictly between the first and the last, 80 tildes; under the last line,
    [end.column] tildes from column 1. *)
Theorem printUnderline_multiline
    (e : ErrorReporter) (r : SourceRange) (lineNum : Z) (color : string) :
  IsMultiline r = true ->
  1 <= Column (Start r) <= 80 ->
  1 <= Column (End_ r) <= maxAlloc ->
  (lineNum = Line (Start r) ->
   printUnderline e r lineNum 4 color =
     ("  " +:+ color +:+ "     " +:+ "  "
      +:+ repeat_string " " (Z.to_nat (Column (Start r) - 1))
      +:+ repeat_string "~" (Z.to_nat (81 - Column (Start r)))
      +:+ colorReset +:+ nl, Done tt)) /\
  (Line (Start r) < lineNum < Line (End_ r) ->
   printUnderline e r lineNum 4 color =
     ("  " +:+ color +:+ "     " +:+ "  "
      +:+ repeat_string "~" 80 +:+ colorReset +:+ nl, Done tt)) /\
  (lineNum = Line (End_ r) ->
   printUnderline e r lineNum 4 color =
     ("  " +:+ color +:+ "     " +:+ "  "
      +:+ repeat_string "~" (Z.to_nat (Column (End_ r)))
      +:+ colorReset +:+ nl, Done tt)).
Proof.
  intros Hml Hs He. repeat split.
  - intros ->. now apply underline_first_row.
  - intros Hin. now apply underline_inner_row.
  - intros ->. apply underline_last_row; [assumption | lia].
Qed.

Lemma printUnderline_multiline_witness :
  printUnderline NewErrorReporter (NewSourceRangeSpan "test.go" 5 10 8 15) 5 4 colorRed
  = ("  " +:+ colorRed +:+ "     " +:+ "  " +:+ repeat_string " " 9
     +:+ repeat_string "~" 71 +:+ colorReset +:+ nl, Done tt).
Proof.
  apply (proj1 (printUnderline_multiline NewErrorReporter
                  (NewSourceRangeSpan "test.go" 5 10 8 15) 5 colorRed
                  eq_refl
                  (conj (Zle_bool_imp_le 1 10 eq_refl) (Zle_bool_imp_le 10 80 eq_refl))
                  (conj (Zle_bool_imp_le 1 15 eq_refl)
                        (Zle_bool_imp_le 15 maxAlloc eq_refl)))).
  reflexivity.
Defined.

(** C2.  The underline is not total on ranges with lines and columns from 1
    up: on the first row of the multi-line range 1:81-2:1 the count
    [80 - start.column] is [-1] and [strings.Repeat] panics, after the gutter,
    80 spaces and one tilde have been written; and a report of a diagnostic
    with that range, in the default format and with the file registered,
    stops with the same panic. *)
Theorem printUnderline_panics_past_column_80 :
  let r := NewSourceRangeSpan "wide.go" 1 81 2 1 in
  let source := repeat_string "x" 90 +:+ nl +:+ "y" in
  let e := AddSource NewErrorReporter "wide.go" source in
  let d := WithRange (NewDiagnostic SeverityError "unterminated block") r in
  (forall color : string,
     printUnderline e r 1 4 color =
       ("  " +:+ color +:+ "     " +:+ "  " +:+ repeat_string " " 80 +:+ "~",
        Panic "strings: negative Repeat count")) /\
  result (Report e d) = Panic "strings: negative Repeat count".
Proof.
  intros r source e d. split.
  - intros color. apply (underline_first_row_panics e r color).
    + reflexivity.
    + simpl. int_bounds.
  - vm_compute. reflexivity.
Qed.

(** ** The one-line formats *)

Lemma printGcc_with_range (e : ErrorReporter) (d : Diagnostic) (r : SourceRange) :
  Range d = Some r ->
  printGcc e d =
    (colorBold +:+ File r +:+ ":" +:+ fmt_d (Line (Start r)) +:+ ":"
     +:+ fmt_d (Column (Start r)) +:+ ": " +:+ Color (Severity_ d)
     +:+ Label (Severity_ d) +:+ ": " +:+ colorReset
     +:+ colorBold +:+ Message d +:+ colorReset +:+ nl, Done tt).
Proof. intros Hr. unfold printGcc. now rewrite Hr. Qed.

Lemma printGcc_without_range (e : ErrorReporter) (d : Diagnostic) :
  Range d = None ->
  printGcc e d =
    (colorBold +:+ Color (Severity_ d) +:+ Label (Severity_ d) +:+ ": "
     +:+ colorReset +:+ colorBold +:+ Message d +:+ colorReset +:+ nl, Done tt).
Proof. intros Hr. unfold printGcc. now rewrite Hr. Qed.

(** C7, as the claim has it, fails: the bytes written for the example are not
    the plain line, with or without its newline, because the line carries
    ANSI styling. *)
Lemma printGcc_example_is_styled :
  stdout (printGcc NewErrorReporter example_diagnostic)
    <> "example.go:5:14: error: type mismatch: cannot add int and string" +:+ nl
  /\ stdout (printGcc NewErrorReporter example_diagnostic)
    <> "example.go:5:14: error: type mismatch: cannot add int and string".
Proof. split; intros H; vm_compute in H; discriminate H. Qed.

(** C7, amended.  The GCC format writes one line and takes nothing from the
    registry, the help, the code or the url.  With a range the line is
    [file:line:column: severity: message] with bold switched on before the
    file, the severity color before the label, and a reset followed by bold
    between [severity: ] and the message, and a reset at the end; without a
    range it is [severity: message] styled the same way.  For the example the
    text between the styling sequences is
    [example.go:5:14: error: type mismatch: cannot add int and string]. *)
Theorem printGcc_format :
  (forall (e : ErrorReporter) (d : Diagnostic) (r : SourceRange),
     Range d = Some r ->
     printGcc e d =
       (colorBold +:+ File r +:+ ":" +:+ fmt_d (Line (Start r)) +:+ ":"
        +:+ fmt_d (Column (Start r)) +:+ ": " +:+ Color (Severity_ d)
        +:+ Label (Severity_ d) +:+ ": " +:+ colorReset
        +:+ colorBold +:+ Message d +:+ colorReset +:+ nl, Done tt)) /\
  (forall (e : ErrorReporter) (d : Diagnostic),
     Range d = None ->
     printGcc e d =
       (colorBold +:+ Color (Severity_ d) +:+ Label (Severity_ d) +:+ ": "
        +:+ colorReset +:+ colorBold +:+ Message d +:+ colorReset +:+ nl,
        Done tt)) /\
  (forall (e e' : ErrorReporter) (d d' : Diagnostic),
     Severity_ d = Severity_ d' -> Message d = Message d' -> Range d = Range d' ->
     printGcc e d = printGcc e' d') /\
  (forall e : ErrorReporter,
     printGcc e example_diagnostic =
       (colorBold +:+ "example.go:5:14: " +:+ colorRed +:+ "error: "
        +:+ colorReset +:+ colorBold
        +:+ "type mismatch: cannot add int and string"
        +:+ colorReset +:+ nl, Done tt)).
Proof.
  split; [exact printGcc_with_range|].
  split; [exact printGcc_without_range|].
  split; [|reflexivity].
  intros e e' d d' Hs Hm Hr. unfold printGcc. now rewrite Hs, Hm, Hr.
Qed.

Lemma printGcc_format_witness :
  printGcc NewErrorReporter (NewDiagnostic SeverityNote "unused import") =
    (colorBold +:+ colorBlue +:+ "note: " +:+ colorReset +:+ colorBold
     +:+ "unused import" +:+ colorReset +:+ nl, Done tt).
Proof.
  apply (proj1 (proj2 printGcc_format) NewErrorReporter
           (NewDiagnostic SeverityNote "unused import")).
  reflexivity.
Defined.

(** C8.  The MSVC format writes exactly one unstyled line: with a range,
    [file(line, column): severity code: message], where the code is the
    diagnostic's, or [unknown] when it has none; without a range,
    [severity: message] and no code.  For the example:
    [example.go(5, 14): error E0001: type mismatch: cannot add int and
    string]. *)
Theorem printMsvc_format :
  (forall (e : ErrorReporter) (d : Diagnostic) (r : SourceRange),
     Range d = Some r ->
     printMsvc e d =
       (File r +:+ "(" +:+ fmt_d (Line (Start r)) +:+ ", "
        +:+ fmt_d (Column (Start r)) +:+ "): " +:+ Label (Severity_ d) +:+ " "
        +:+ match Code d with Some code => code | None => "unknown" end
        +:+ ": " +:+ Message d +:+ nl, Done tt)) /\
  (forall (e : ErrorReporter) (d : Diagnostic),
     Range d = None ->
     printMsvc e d = (Label (Severity_ d) +:+ ": " +:+ Message d +:+ nl, Done tt)) /\
  (forall e : ErrorReporter,
     printMsvc e example_diagnostic =
       ("example.go(5, 14): error E0001: type mismatch: cannot add int and string"
        +:+ nl, Done tt)) /\
  (forall e : ErrorReporter,
     printMsvc e (NewDiagnosticWithLocation SeverityWarning "test warning" "test.go" 15 8) =
       ("test.go(15, 8): warning unknown: test warning" +:+ nl, Done tt)).
Proof.
  split; [|split; [|split]].
  - intros e d r Hr. unfold printMsvc. now rewrite Hr.
  - intros e d Hr. unfold printMsvc. now rewrite Hr.
  - reflexivity.
  - reflexivity.
Qed.

Lemma printMsvc_format_witness :
  printMsvc NewErrorReporter (NewDiagnostic SeverityTodo "later") =
    ("todo: later" +:+ nl, Done tt).
Proof.
  apply (proj1 (proj2 printMsvc_format) NewErrorReporter
           (NewDiagnostic SeverityTodo "later")).
  reflexivity.
Defined.

(** ** The verbose format *)

Section Verbose.

Variable d : Diagnostic.

(** The four fixed parts of what [printFehler] writes for [d]. *)
Local Abbreviation header :=
  (match Code d with
   | Some code =>
       Color (Severity_ d) +:+ colorBold +:+ Label (Severity_ d)
       +:+ "[" +:+ code +:+ "]" +:+ colorReset +:+ ": " +:+ Message d +:+ nl
   | None =>
       Color (Severity_ d) +:+ colorBold +:+ Label (Severity_ d)
       +:+ colorReset +:+ ": " +:+ Message d +:+ nl
   end).

Local Abbreviation location r :=
  ("  " +:+ colorCyan +:+ colorBold +:+ File r +:+ ":"
   +:+ fmt_d (Line (Start r)) +:+ ":" +:+ fmt_d (Column (Start r))
   +:+ colorReset +:+ nl).

Local Abbreviation help_line :=
  (match Help d with
   | Some help =>
       "  " +:+ colorCyan +:+ colorBold +:+ "help" +:+ colorReset
       +:+ ": " +:+ help +:+ nl
   | None => ""
   end).

Local Abbreviation url_line :=
  (match Url d with
   | Some url =>
       "  " +:+ colorCyan +:+ colorBold +:+ "see" +:+ colorReset
       +:+ ": " +:+ url +:+ nl
   | None => ""
   end).

Lemma printFehler_with_snippet (e : ErrorReporter) (r : SourceRange) (snippet : string) :
  Range d = Some r ->
  printSourceSnippet e r (Color (Severity_ d)) = (snippet, Done tt) ->
  printFehler e d =
    (header +:+ location r +:+ snippet +:+ help_line +:+ url_line +:+ nl, Done tt).
Proof.
  intros Hr Hsnip. unfold printFehler. rewrite Hr, Hsnip.
  destruct (Code d), (Help d), (Url d); console;
    rewrite ?append_assoc, ?append_nil_l; reflexivity.
Qed.

Lemma printFehler_without_range (e : ErrorReporter) :
  Range d = None ->
  printFehler e d = (header +:+ help_line +:+ url_line +:+ nl, Done tt).
Proof.
  intros Hr. unfold printFehler. rewrite Hr.
  destruct (Code d), (Help d), (Url d); console;
    rewrite ?append_assoc, ?append_nil_l; reflexivity.
Qed.

Lemma printSourceSnippet_missing (e : ErrorReporter) (r : SourceRange) (color : string) :
  Sources e !! File r = None -> printSourceSnippet e r color = ("", Done tt).
Proof. intros Hmiss. unfold printSourceSnippet. now rewrite Hmiss. Qed.

(** C6.  When the file of the range is not in the registry, the snippet
    printer writes nothing and returns normally, and the verbose format
    writes the header, the location line, the help line, the url line and
    the closing blank line: the same bytes, around the same place, as when
    the file is registered and a snippet stands between the location line and
    the help line. *)
Theorem printFehler_missing_source (e : ErrorReporter) (r : SourceRange) :
  Range d = Some r ->
  Sources e !! File r = None ->
  (forall color : string, printSourceSnippet e r color = ("", Done tt)) /\
  printFehler e d =
    (header +:+ location r +:+ help_line +:+ url_line +:+ nl, Done tt) /\
  (forall (e' : ErrorReporter) (snippet : string),
     printSourceSnippet e' r (Color (Severity_ d)) = (snippet, Done tt) ->
     printFehler e' d =
       (header +:+ location r +:+ snippet +:+ help_line +:+ url_line +:+ nl,
        Done tt)).
Proof.
  intros Hr Hmiss. split; [|split].
  - intros color. now apply printSourceSnippet_missing.
  - apply (printFehler_with_snippet e r "" Hr).
    now apply printSourceSnippet_missing.
  - intros e' snippet. now apply printFehler_with_snippet.
Qed.

End Verbose.

Lemma printFehler_missing_source_witness :
  printFehler NewErrorReporter example_diagnostic =
    (colorRed +:+ colorBold +:+ "error[E0001]" +:+ colorReset
     +:+ ": type mismatch: cannot add int and string" +:+ nl
     +:+ "  " +:+ colorCyan +:+ colorBold +:+ "example.go:5:14" +:+ colorReset +:+ nl
     +:+ "  " +:+ colorCyan +:+ colorBold +:+ "help" +:+ colorReset
     +:+ ": consider converting the string using strconv.Itoa or similar" +:+ nl
     +:+ "  " +:+ colorCyan +:+ colorBold +:+ "see" +:+ colorReset
     +:+ ": https://docs.example.org/errors/E0001" +:+ nl
     +:+ nl, Done tt).
Proof.
  apply (proj1 (proj2 (printFehler_missing_source example_diagnostic NewErrorReporter
                         (NewSourceRangeSpan "example.go" 5 14 5 20)
                         eq_refl eq_refl))).
Defined.

(** ** The context window *)

Lemma contextStart_max (r : SourceRange) :
  GoInt.in_int (Line (Start r)) ->
  contextStart r = Z.max 1 (Line (Start r) - 2).
Proof.
  intros Hs. unfold contextStart.
  destruct (Z.gtb_spec (Line (Start r)) 2) as [Hgt|Hle].
  - rewrite sub_no_overflow by int_bounds. lia.
  - lia.
Qed.

Lemma contextEnd_min (r : SourceRange) (lines : list string) :
  GoInt.min_int <= Line (Start r) <= GoInt.max_int - 2 ->
  GoInt.min_int <= Line (End_ r) <= GoInt.max_int - 2 ->
  contextEnd r lines =
    Z.min (len_slice lines)
          ((if IsMultiline r then Line (End_ r) else Line (Start r)) + 2).
Proof.
  intros Hs He. unfold contextEnd.
  rewrite !add_no_overflow by int_bounds.
  destruct (IsMultiline r);
    match goal with |- context [?a >? ?b] => destruct (Z.gtb_spec a b) end; lia.
Qed.

Lemma contextStart_positive (r : SourceRange) :
  GoInt.in_int (Line (Start r)) -> 1 <= contextStart r.
Proof. intros Hs. rewrite contextStart_max by assumption. lia. Qed.

(** Whatever the range, the loop stops at the last line of the file at the
    latest, and at an [int]. *)
Lemma contextEnd_le_len (r : SourceRange) (lines : list string) :
  contextEnd r lines <= len_slice lines /\ contextEnd r lines <= GoInt.max_int.
Proof.
  unfold contextEnd, GoInt.add.
  pose proof (wrap_range (Line (Start r) + 2)) as H1.
  pose proof (wrap_range (Line (End_ r) + 2)) as H2.
  destruct (IsMultiline r);
    match goal with |- context [?a >? ?b] => destruct (Z.gtb_spec a b) end;
    int_bounds.
Qed.

Lemma elem_of_range_list (lo hi n : Z) : n ∈ range_list lo hi <-> lo <= n <= hi.
Proof. unfold range_list. rewrite elem_of_seqZ. lia. Qed.

Lemma window_in_file (r : SourceRange) (lines : list string) (n : Z) :
  GoInt.in_int (Line (Start r)) ->
  n ∈ range_list (contextStart r) (contextEnd r lines) ->
  1 <= n <= len_slice lines /\ n <= GoInt.max_int.
Proof.
  intros Hs Hn. apply elem_of_range_list in Hn.
  pose proof (contextStart_positive r Hs).
  pose proof (contextEnd_le_len r lines). lia.
Qed.

Lemma printSourceSnippet_loop (e : ErrorReporter) (r : SourceRange)
    (color source : string) :
  Sources e !! File r = Some source ->
  printSourceSnippet e r color =
    for_each (snippetLine e r color (strings_Split source "010"))
      (range_list (contextStart r) (contextEnd r (strings_Split source "010"))).
Proof. intros Hsrc. unfold printSourceSnippet. now rewrite Hsrc. Qed.

(** C5.  For a range whose lines are [int]s on which [+ 2] does not overflow,
    the loop over the context runs from [max(1, start.line - 2)] to
    [min(total_lines, end.line + 2)], with [start.line] for [end.line] when
    the range is on one line; the snippet printer visits exactly these lines,
    and every line number it visits is between 1 and [total_lines].  In a
    file of 10 lines a one-line range at line 5 gives lines 3 to 7, one at
    line 1 gives lines 1 to 3, and a range that ends at line 9 stops at
    line 10. *)
Theorem context_window :
  (forall (r : SourceRange) (lines : list string),
     GoInt.min_int <= Line (Start r) <= GoInt.max_int - 2 ->
     GoInt.min_int <= Line (End_ r) <= GoInt.max_int - 2 ->
     contextStart r = Z.max 1 (Line (Start r) - 2) /\
     contextEnd r lines =
       Z.min (len_slice lines)
             ((if IsMultiline r then Line (End_ r) else Line (Start r)) + 2)) /\
  (forall (e : ErrorReporter) (r : SourceRange) (color source : string),
     Sources e !! File r = Some source ->
     printSourceSnippet e r color =
       for_each (snippetLine e r color (strings_Split source "010"))
         (range_list (contextStart r)
                     (contextEnd r (strings_Split source "010")))) /\
  (forall (r : SourceRange) (lines : list string) (n : Z),
     GoInt.in_int (Line (Start r)) ->
     n ∈ range_list (contextStart r) (contextEnd r lines) ->
     1 <= n <= len_slice lines) /\
  (forall (file : string) (column : Z) (lines : list string),
     len_slice lines = 10 ->
     range_list (contextStart (NewSourceRangeSingle file 5 column))
                (contextEnd (NewSourceRangeSingle file 5 column) lines)
       = [3; 4; 5; 6; 7] /\
     range_list (contextStart (NewSourceRangeSingle file 1 column))
                (contextEnd (NewSourceRangeSingle file 1 column) lines)
       = [1; 2; 3] /\
     forall startLine startColumn endColumn : Z,
       contextEnd (NewSourceRangeSpan file startLine startColumn 9 endColumn) lines
         = 10).
Proof.
  split; [|split; [|split]].
  - intros r lines Hs He. split.
    + apply contextStart_max. int_bounds.
    + now apply contextEnd_min.
  - exact printSourceSnippet_loop.
  - intros r lines n Hs Hn. now apply (window_in_file r lines n Hs).
  - intros file column lines Hlen. split; [|split].
    + unfold contextEnd. simpl. rewrite Hlen. reflexivity.
    + unfold contextEnd. simpl. rewrite Hlen. reflexivity.
    + intros startLine startColumn endColumn. unfold contextEnd, IsMultiline.
      cbn [NewSourceRangeSpan Start End_ Line]. rewrite Hlen.
      destruct (startLine =? 9) eqn:Heq; cbn [negb].
      * apply Z.eqb_eq in Heq. subst startLine. reflexivity.
      * reflexivity.
Qed.

Lemma context_window_witness :
  range_list (contextStart (NewSourceRangeSingle "example.go" 5 14))
             (contextEnd (NewSourceRangeSingle "example.go" 5 14)
                         (strings_Split example_source "010"))
  = [3; 4; 5; 6; 7]
  /\ contextEnd (NewSourceRangeSpan "example.go" 5 14 6 2)
                (strings_Split example_source "010")
     = Z.min 7 (6 + 2).
Proof.
  split; [reflexivity|].
  apply (proj1 context_window (NewSourceRangeSpan "example.go" 5 14 6 2)
           (strings_Split example_source "010")).
  - unfold GoInt.min_int, GoInt.max_int. simpl. lia.
  - unfold GoInt.min_int, GoInt.max_int. simpl. lia.
Defined.

(** ** The snippet *)

Lemma for_each_done (body : Z -> Console unit) (f : Z -> string) (idx : list Z) :
  (forall i : Z, i ∈ idx -> body i = (f i, Done tt)) ->
  for_each body idx = (concat_strings (map f idx), Done tt).
Proof.
  induction idx as [|i idx IH]; intros Hbody; [reflexivity|].
  cbn [for_each map concat_strings].
  rewrite (Hbody i) by apply list_elem_of_here.
  rewrite bind_done, IH; [reflexivity|].
  intros j Hj. apply Hbody. now apply list_elem_of_further.
Qed.

Lemma index_in_range (lines : list string) (n : Z) :
  1 <= n <= len_slice lines -> n <= GoInt.max_int ->
  index lines (GoInt.sub n 1) = mret (default "" (lines !! Z.to_nat (n - 1))).
Proof.
  intros Hn Hmax. rewrite sub_no_overflow by int_bounds. unfold index.
  destruct (Z.ltb_spec (n - 1) 0) as [?|_]; [lia|].
  destruct (lookup_lt_is_Some_2 lines (Z.to_nat (n - 1))) as [line Hline].
  - unfold len_slice in Hn. lia.
  - now rewrite Hline.
Qed.

Lemma fmt_4d_padded (n : Z) :
  (4 <= String.length (fmt_4d n))%nat /\
  fmt_4d n = repeat_string " " (4 - String.length (fmt_d n)) +:+ fmt_d n.
Proof.
  split; [|reflexivity].
  unfold fmt_4d. cbv zeta. rewrite length_append, length_repeat_char. lia.
Qed.

Lemma fmt_4d_width_4 (n : Z) : 0 <= n <= 9999 -> String.length (fmt_4d n) = 4%nat.
Proof.
  intros Hn.
  assert (forallb (fun k => Nat.eqb (String.length (fmt_4d k)) 4) (seqZ 0 10000) = true)
    as Hall by (vm_compute; reflexivity).
  rewrite forallb_forall in Hall.
  apply Nat.eqb_eq, Hall, list_elem_of_In, elem_of_seqZ. lia.
Qed.

Lemma printUnderline_starts_with_color
    (e : ErrorReporter) (r : SourceRange) (lineNum : Z) (color : string) :
  exists rest : string,
    stdout (printUnderline e r lineNum 4 color) = "  " +:+ color +:+ rest.
Proof.
  unfold printUnderline. rewrite bind_print. unfold stdout at 1. cbn [fst].
  rewrite append_assoc. eauto.
Qed.

Section Snippet.

Variable e : ErrorReporter.
Variable r : SourceRange.
Variable color : string.
Variable lines : list string.

(** What the loop writes for line [n]: the line behind a bold red gutter and
    the underline row when the range touches it, the line behind a dimmed
    gutter when it does not. *)
Local Abbreviation display n :=
  (if (n >=? Line (Start r)) && (n <=? Line (End_ r)) then
     "  " +:+ colorRed +:+ colorBold +:+ fmt_4d n +:+ " |" +:+ colorReset
     +:+ " " +:+ default "" (lines !! Z.to_nat (n - 1)) +:+ nl
     +:+ stdout (printUnderline e r n 4 color)
   else
     "  " +:+ colorDim +:+ fmt_4d n +:+ " |" +:+ colorReset
     +:+ " " +:+ default "" (lines !! Z.to_nat (n - 1)) +:+ nl).

Lemma snippetLine_display (n : Z) :
  1 <= n <= len_slice lines -> n <= GoInt.max_int ->
  1 <= Column (Start r) <= maxAlloc ->
  0 <= Column (End_ r) <= maxAlloc ->
  (IsMultiline r = true -> Column (Start r) <= 80) ->
  snippetLine e r color lines n = (display n, Done tt).
Proof.
  intros Hn Hmax Hs He Hfirst. unfold snippetLine.
  rewrite index_in_range, bind_ret by assumption. cbv zeta.
  destruct ((n >=? Line (Start r)) && (n <=? Line (End_ r))); [|reflexivity].
  destruct (underline_total e r color n Hs He) as [out Hout]; [auto|].
  rewrite Hout. console. now rewrite ?append_assoc.
Qed.

Lemma printSourceSnippet_display :
  GoInt.in_int (Line (Start r)) ->
  1 <= Column (Start r) <= maxAlloc ->
  0 <= Column (End_ r) <= maxAlloc ->
  (IsMultiline r = true -> Column (Start r) <= 80) ->
  for_each (snippetLine e r color lines)
           (range_list (contextStart r) (contextEnd r lines))
  = (concat_strings
       (map (fun n => display n)
            (range_list (contextStart r) (contextEnd r lines))), Done tt).
Proof.
  intros Hline Hs He Hfirst. apply for_each_done. intros n Hn.
  destruct (window_in_file r lines n Hline Hn) as [Hin Hmax].
  now apply snippetLine_display.
Qed.

End Snippet.

(** C1, as the claim has it, fails: for a warning on line 5 of the example,
    the row of line 5 starts with the red and bold gutter, not with the
    yellow of the severity. *)
Lemma warning_line_is_red :
  let r := NewSourceRangeSpan "example.go" 5 14 5 20 in
  let lines := strings_Split example_source "010" in
  let row := stdout (snippetLine example_reporter r (Color SeverityWarning) lines 5) in
  (exists rest : string,
     row = "  " +:+ colorRed +:+ colorBold +:+ "   5 |" +:+ rest) /\
  ~ (exists rest : string, row = "  " +:+ Color SeverityWarning +:+ rest).
Proof.
  intros r lines row. split.
  - eexists. vm_compute. reflexivity.
  - intros [rest H]. vm_compute in H. discriminate H.
Qed.

(** C1, amended.  For a diagnostic with a range whose file is registered,
    where the underline can be drawn (start line an [int], columns from 1 up
    to the allocation limit, start column at most 80 when the range spans
    lines), [printFehler] writes the header, the location line, the snippet,
    the help and url lines and a blank line, and the snippet is, for each
    line [n] of the context window in order: if the range touches [n], the
    line behind a gutter in red and bold, whatever the severity, followed by
    the underline row in the color of the severity of the diagnostic; if it
    does not, the line behind a dimmed gutter.  The text of the line itself
    comes after a reset.  The line number is padded with spaces on the left to
    four characters (exactly four up to 9999).  So a warning on line 5 of the
    example has a red gutter on line 5 and a yellow underline. *)
Theorem printFehler_snippet_colors :
  (forall (e : ErrorReporter) (d : Diagnostic) (r : SourceRange) (source : string),
     Range d = Some r ->
     Sources e !! File r = Some source ->
     GoInt.in_int (Line (Start r)) ->
     1 <= Column (Start r) <= maxAlloc ->
     1 <= Column (End_ r) <= maxAlloc ->
     (IsMultiline r = true -> Column (Start r) <= 80) ->
     let lines := strings_Split source "010" in
     printFehler e d =
       (match Code d with
        | Some code =>
            Color (Severity_ d) +:+ colorBold +:+ Label (Severity_ d)
            +:+ "[" +:+ code +:+ "]" +:+ colorReset +:+ ": " +:+ Message d +:+ nl
        | None =>
            Color (Severity_ d) +:+ colorBold +:+ Label (Severity_ d)
            +:+ colorReset +:+ ": " +:+ Message d +:+ nl
        end
        +:+ ("  " +:+ colorCyan +:+ colorBold +:+ File r +:+ ":"
             +:+ fmt_d (Line (Start r)) +:+ ":" +:+ fmt_d (Column (Start r))
             +:+ colorReset +:+ nl)
        +:+ concat_strings
              (map (fun n =>
                      if (n >=? Line (Start r)) && (n <=? Line (End_ r)) then
                        "  " +:+ colorRed +:+ colorBold +:+ fmt_4d n +:+ " |"
                        +:+ colorReset +:+ " "
                        +:+ default "" (lines !! Z.to_nat (n - 1)) +:+ nl
                        +:+ stdout (printUnderline e r n 4 (Color (Severity_ d)))
                      else
                        "  " +:+ colorDim +:+ fmt_4d n +:+ " |"
                        +:+ colorReset +:+ " "
                        +:+ default "" (lines !! Z.to_nat (n - 1)) +:+ nl)
                   (range_list (contextStart r) (contextEnd r lines)))
        +:+ match Help d with
            | Some help =>
                "  " +:+ colorCyan +:+ colorBold +:+ "help" +:+ colorReset
                +:+ ": " +:+ help +:+ nl
            | None => ""
            end
        +:+ match Url d with
            | Some url =>
                "  " +:+ colorCyan +:+ colorBold +:+ "see" +:+ colorReset
                +:+ ": " +:+ url +:+ nl
            | None => ""
            end
        +:+ nl,
        Done tt)) /\
  (forall (e : ErrorReporter) (d : Diagnostic) (r : SourceRange) (n : Z),
     exists rest : string,
       stdout (printUnderline e r n 4 (Color (Severity_ d)))
       = "  " +:+ Color (Severity_ d) +:+ rest) /\
  (forall n : Z,
     (4 <= String.length (fmt_4d n))%nat /\
     fmt_4d n = repeat_string " " (4 - String.length (fmt_d n)) +:+ fmt_d n) /\
  (forall n : Z, 0 <= n <= 9999 -> String.length (fmt_4d n) = 4%nat) /\
  Color SeverityWarning = colorYellow /\ Color SeverityNote = colorBlue /\
  printFehler example_reporter
    (WithRange (NewDiagnostic SeverityWarning "unused variable")
               (NewSourceRangeSpan "example.go" 5 14 5 20)) =
    (colorYellow +:+ colorBold +:+ "warning" +:+ colorReset
     +:+ ": unused variable" +:+ nl
     +:+ "  " +:+ colorCyan +:+ colorBold +:+ "example.go:5:14" +:+ colorReset +:+ nl
     +:+ "  " +:+ colorDim +:+ "   3 |" +:+ colorReset +:+ " func main() {" +:+ nl
     +:+ "  " +:+ colorDim +:+ "   4 |" +:+ colorReset +:+ "     x := 42" +:+ nl
     +:+ "  " +:+ colorRed +:+ colorBold +:+ "   5 |" +:+ colorReset
     +:+ "     y := x + " +:+ String "034"%char "hello" +:+ String "034"%char " // Error here!"
     +:+ nl
     +:+ "  " +:+ colorYellow +:+ "     " +:+ "  " +:+ "             " +:+ "~~~~~~~"
     +:+ colorReset +:+ nl
     +:+ "  " +:+ colorDim +:+ "   6 |" +:+ colorReset +:+ "     println(y)" +:+ nl
     +:+ "  " +:+ colorDim +:+ "   7 |" +:+ colorReset +:+ " }" +:+ nl
     +:+ nl,
     Done tt).
Proof.
  split; [|split; [|split; [|split; [|split; [|split]]]]].
  - intros e d r source Hr Hsrc Hline Hs He Hfirst lines.
    apply (printFehler_with_snippet d e r _ Hr).
    rewrite (printSourceSnippet_loop e r _ source Hsrc).
    apply printSourceSnippet_display; try assumption. lia.
  - intros e d r n. apply printUnderline_starts_with_color.
  - exact fmt_4d_padded.
  - exact fmt_4d_width_4.
  - reflexivity.
  - reflexivity.
  - vm_compute. reflexivity.
Qed.

Lemma printFehler_snippet_colors_witness :
  (exists out : string,
     printFehler example_reporter
       (WithRange (NewDiagnostic SeverityNote "declared here")
                  (NewSourceRangeSpan "example.go" 4 5 4 5)) = (out, Done tt))
  /\ String.length (fmt_4d 5) = 4%nat.
Proof.
  split.
  - eexists.
    apply (proj1 printFehler_snippet_colors example_reporter
             (WithRange (NewDiagnostic SeverityNote "declared here")
                        (NewSourceRangeSpan "example.go" 4 5 4 5))
             (NewSourceRangeSpan "example.go" 4 5 4 5) example_source).
    + reflexivity.
    + reflexivity.
    + unfold GoInt.in_int, GoInt.min_int, GoInt.max_int. simpl. lia.
    + unfold maxAlloc. simpl. lia.
    + unfold maxAlloc. simpl. lia.
    + simpl. lia.
  - apply (proj1 (proj2 (proj2 (proj2 printFehler_snippet_colors))) 5).
    lia.
Defined.

(** ** The structured report *)

Section Rules.

Variable code : string.

Local Abbreviation carries := (fun d : Diagnostic => Code d = Some code).
Local Abbreviation has_id := (fun rule : SarifRule => Rule_ID rule = code).

(** After the first loop, the entry of [code] is the one the map had before
    the loop, or else the rule of the first diagnostic that carries [code]. *)
Lemma collectRules_lookup (diagnostics : list Diagnostic) (ruleMap : gmap string SarifRule) :
  collectRules diagnostics ruleMap !! code =
    match ruleMap !! code with
    | Some rule => Some rule
    | None => (fun found => ruleOf code found.2) <$> list_find carries diagnostics
    end.
Proof.
  revert ruleMap. induction diagnostics as [|d rest IH]; intros ruleMap.
  - simpl. now destruct (ruleMap !! code).
  - cbn [collectRules list_find]. rewrite IH. clear IH.
    destruct (Code d) as [c|] eqn:Hc.
    + destruct (decide (c = code)) as [->|Hne].
      * rewrite decide_True by reflexivity.
        destruct (ruleMap !! code) as [rule|] eqn:Hm.
        -- now rewrite Hm.
        -- now rewrite lookup_insert_eq.
      * rewrite decide_False by congruence.
        assert (match ruleMap !! c with
                | Some _ => ruleMap
                | None => <[c:=ruleOf c d]> ruleMap
                end !! code = ruleMap !! code) as ->.
        { destruct (ruleMap !! c); [reflexivity|]. now apply lookup_insert_ne. }
        destruct (ruleMap !! code); [reflexivity|].
        now destruct (list_find carries rest) as [[i x]|].
    + rewrite decide_False by congruence.
      destruct (ruleMap !! code); [reflexivity|].
      now destruct (list_find carries rest) as [[i x]|].
Qed.

Lemma collectRules_first (diagnostics : list Diagnostic) (i : nat) (d : Diagnostic) :
  diagnostics !! i = Some d ->
  Code d = Some code ->
  (forall (j : nat) (d' : Diagnostic),
     (j < i)%nat -> diagnostics !! j = Some d' -> Code d' <> Some code) ->
  collectRules diagnostics ∅ !! code = Some (ruleOf code d).
Proof.
  intros Hi Hc Hfirst. rewrite collectRules_lookup, lookup_empty.
  assert (list_find carries diagnostics = Some (i, d)) as ->; [|reflexivity].
  apply list_find_Some. repeat split; try assumption.
  intros j d' Hj Hlt. now apply (Hfirst j d').
Qed.


Lemma collectRules_id (diagnostics : list Diagnostic) (rule : SarifRule) :
  collectRules diagnostics ∅ !! code = Some rule -> Rule_ID rule = code.
Proof.
  rewrite collectRules_lookup, lookup_empty.
  destruct (list_find carries diagnostics) as [[i d]|]; simpl; [|discriminate].
  now intros [= <-].
Qed.

(** In a list of entries with distinct keys, each keyed by the id of its
    rule, the rules with id [code] are the entry of [code], if there is one. *)
Lemma filter_id_absent (entries : list (string * SarifRule)) :
  (forall k rule, (k, rule) ∈ entries -> Rule_ID rule = k) ->
  code ∉ entries.*1 ->
  filter has_id entries.*2 = [].
Proof.
  induction entries as [|[k rule] entries IH]; intros Hid Hnot; [reflexivity|].
  cbn [fmap list_fmap snd] in *.
  apply not_elem_of_cons in Hnot as [Hne Hnot].
  rewrite filter_cons_False.
  - apply IH; [|assumption]. intros k' rule' Hin. apply Hid. now right.
  - cbn. rewrite (Hid k rule) by left. cbn in Hne. congruence.
Qed.

Lemma filter_id_present (entries : list (string * SarifRule)) (rule : SarifRule) :
  (forall k rule', (k, rule') ∈ entries -> Rule_ID rule' = k) ->
  NoDup entries.*1 ->
  (code, rule) ∈ entries ->
  filter has_id entries.*2 = [rule].
Proof.
  induction entries as [|[k rule'] entries IH]; intros Hid Hnodup Hin.
  - now apply elem_of_nil in Hin.
  - cbn [fmap list_fmap fst snd] in *.
    apply NoDup_cons in Hnodup as [Hk Hnodup].
    assert (forall k0 rule0, (k0, rule0) ∈ entries -> Rule_ID rule0 = k0) as Hid'.
    { intros k0 rule0 H0. apply Hid. now right. }
    apply elem_of_cons in Hin as [[= <- <-]|Hin].
    + rewrite filter_cons_True by (cbn; apply Hid; left).
      f_equal. now apply filter_id_absent.
    + assert (k <> code) as Hne.
      { intros ->. apply Hk. apply list_elem_of_fmap. now exists (code, rule). }
      rewrite filter_cons_False.
      * now apply IH.
      * cbn. rewrite (Hid k rule') by left. assumption.
Qed.

End Rules.

Lemma collectResults_app (diagnostics : list Diagnostic) (results : list SarifResult) :
  collectResults diagnostics results = results ++ (resultOf <$> diagnostics).
Proof.
  revert results. induction diagnostics as [|d rest IH]; intros results; simpl.
  - now rewrite app_nil_r.
  - rewrite IH. now rewrite <- app_assoc.
Qed.

Lemma resultOf_fields (d : Diagnostic) :
  Result_RuleID (resultOf d) = Code d /\
  Result_Message (resultOf d) = {| Text := Message d |} /\
  Result_Level (resultOf d) = sarifLevel (Severity_ d).
Proof. unfold resultOf. now destruct (Code d), (Range d). Qed.

Lemma rules_of_code_first (diagnostics : list Diagnostic) (rules : list SarifRule)
    (code : string) (i : nat) (d : Diagnostic) :
  rules ≡ₚ (map_to_list (collectRules diagnostics ∅)).*2 ->
  diagnostics !! i = Some d ->
  Code d = Some code ->
  (forall (j : nat) (d' : Diagnostic),
     (j < i)%nat -> diagnostics !! j = Some d' -> Code d' <> Some code) ->
  filter (fun rule => Rule_ID rule = code) rules = [ruleOf code d].
Proof.
  intros Hperm Hi Hc Hfirst. apply Permutation_singleton_r. rewrite Hperm.
  rewrite (filter_id_present code _ (ruleOf code d)); [reflexivity| | |].
  - intros k rule Hin. apply elem_of_map_to_list in Hin.
    now apply (collectRules_id k diagnostics).
  - apply NoDup_fst_map_to_list.
  - apply elem_of_map_to_list. now apply (collectRules_first code diagnostics i).
Qed.




(** * Further properties of the code *)

(** ** Ranges and their length *)

(** X1.  The range [NewSourceRangeSingle] builds is a single character, is
    not multi-line, and has length 1, at every line and column. *)
Theorem NewSourceRangeSingle_is_single_char (file : string) (line column : Z) :
  IsSingleChar (NewSourceRangeSingle file line column) = true /\
  IsMultiline (NewSourceRangeSingle file line column) = false /\
  Length (NewSourceRangeSingle file line column) = 1.
Proof.
  unfold Length, IsSingleChar, IsMultiline, GoInt.sub.
  cbn [NewSourceRangeSingle Start End_ Line Column].
  rewrite !Z.eqb_refl, Z.sub_diag.
  destruct (Z.geb_spec column column) as [_|?]; [|lia].
  repeat split; reflexivity.
Qed.

(** X2.  [Length] off the main case: 0 on every multi-line range; 1 on a
    single-line range whose end column is before its start column; 1 on every
    single-character range; and on a single-line range with a start column
    from 1 and an end column that is an [int], at least 1, so that there
    [Length] is 0 exactly on multi-line ranges. *)
Theorem Length_cases (r : SourceRange) :
  (IsMultiline r = true -> Length r = 0) /\
  (IsMultiline r = false -> Column (End_ r) < Column (Start r) -> Length r = 1) /\
  (IsSingleChar r = true -> Length r = 1) /\
  (1 <= Column (Start r) -> Column (End_ r) <= GoInt.max_int ->
   (IsMultiline r = false -> 1 <= Length r <= GoInt.max_int) /\
   (Length r = 0 <-> IsMultiline r = true)).
Proof.
  split; [|split; [|split]].
  - intros Hml. unfold Length. now rewrite Hml.
  - intros Hml Hlt. unfold Length. rewrite Hml.
    destruct (Z.geb_spec (Column (End_ r)) (Column (Start r))); [lia | reflexivity].
  - intros Hsc. apply IsSingleChar_true in Hsc.
    unfold Length, IsMultiline, GoInt.sub. rewrite Hsc, Z.eqb_refl, Z.sub_diag.
    cbn [negb]. destruct (Z.geb_spec (Column (End_ r)) (Column (End_ r))); [|lia].
    reflexivity.
  - intros Hs He. split.
    + intros Hml. now apply Length_positive.
    + split.
      * intros H0. destruct (IsMultiline r) eqn:Hml; [reflexivity|].
        pose proof (Length_positive r Hml Hs He). lia.
      * intros Hml. unfold Length. now rewrite Hml.
Qed.

Lemma Length_cases_witness :
  Length (NewSourceRangeSpan "test.go" 10 15 10 5) = 1 /\
  1 <= Length (NewSourceRangeSpan "test.go" 10 5 10 15) <= GoInt.max_int.
Proof.
  split.
  - apply (proj1 (proj2 (Length_cases (NewSourceRangeSpan "test.go" 10 15 10 5)))).
    + reflexivity.
    + simpl. lia.
  - apply (proj2 (proj2 (proj2 (Length_cases (NewSourceRangeSpan "test.go" 10 5 10 15))))).
    + simpl. lia.
    + unfold GoInt.max_int. simpl. lia.
    + reflexivity.
Defined.

(** X3.  A single-line range whose end column is before its start column
    (and whose start column is between 1 and the allocation limit) is
    underlined with one tilde under the start column. *)
Theorem printUnderline_reversed_columns
    (e : ErrorReporter) (r : SourceRange) (lineNum : Z) (color : string) :
  IsMultiline r = false ->
  1 <= Column (Start r) <= maxAlloc ->
  Column (End_ r) < Column (Start r) ->
  printUnderline e r lineNum 4 color =
    ("  " +:+ color +:+ "     " +:+ "  "
     +:+ repeat_string " " (Z.to_nat (Column (Start r) - 1))
     +:+ "~" +:+ colorReset +:+ nl, Done tt).
Proof.
  intros Hml Hs Hlt.
  rewrite (underline_single_line e r color lineNum Hml Hs) by lia.
  assert (IsSingleChar r = false) as ->.
  { unfold IsSingleChar. destruct (Z.eqb_spec (Column (Start r)) (Column (End_ r)));
      [lia | apply andb_false_r]. }
  assert (Length r = 1) as ->; [|reflexivity].
  unfold Length. rewrite Hml.
  destruct (Z.geb_spec (Column (End_ r)) (Column (Start r))); [lia | reflexivity].
Qed.

Lemma printUnderline_reversed_columns_witness :
  printUnderline NewErrorReporter (NewSourceRangeSpan "test.go" 3 9 3 2) 3 4 colorBlue =
    ("  " +:+ colorBlue +:+ "     " +:+ "  " +:+ "        " +:+ "~"
     +:+ colorReset +:+ nl, Done tt).
Proof.
  apply (printUnderline_reversed_columns NewErrorReporter
           (NewSourceRangeSpan "test.go" 3 9 3 2) 3 colorBlue).
  - reflexivity.
  - unfold maxAlloc. simpl. lia.
  - simpl. lia.
Defined.

(** ** Severities *)

Ltac severity_cases s :=
  destruct s as [|[[[?|?|]|[?|?|]|]|[[?|?|]|[?|?|]|]|]|?].

(** X4.  A severity outside the six declared ones has the label [unknown],
    an empty color, and the SARIF level [none]. *)
Theorem undeclared_severity (s : Severity) :
  s < 0 \/ 5 < s ->
  Label s = "unknown" /\ Color s = "" /\ sarifLevel s = "none".
Proof.
  intros Hs. severity_cases s; try lia; repeat split.
Qed.

Lemma undeclared_severity_witness :
  Label 6 = "unknown" /\ Color 6 = "" /\ sarifLevel 6 = "none".
Proof. apply (undeclared_severity 6). right. lia. Defined.

(** X5.  Every severity maps to one of the four SARIF levels; the level is
    [error] exactly for [Fatal] and [Error], which are also exactly the
    severities printed in red; and the six declared severities have six
    different labels, none of them [unknown]. *)
Theorem severity_classes :
  (forall s : Severity,
     sarifLevel s = "error" \/ sarifLevel s = "warning" \/
     sarifLevel s = "note" \/ sarifLevel s = "none") /\
  (forall s : Severity,
     (sarifLevel s = "error" <-> s = SeverityFatal \/ s = SeverityError) /\
     (Color s = colorRed <-> s = SeverityFatal \/ s = SeverityError)) /\
  (forall s t : Severity,
     0 <= s <= 5 -> 0 <= t <= 5 -> Label s = Label t -> s = t) /\
  (forall s : Severity, 0 <= s <= 5 -> Label s <> "unknown").
Proof.
  split; [|split; [|split]].
  - intros s. severity_cases s; cbn; tauto.
  - intros s. unfold SeverityFatal, SeverityError.
    severity_cases s; cbn; (split; split; intros H;
      try (destruct H as [H|H]); try discriminate H; try tauto; try lia).
  - intros s t Hs Ht.
    assert (s = 0 \/ s = 1 \/ s = 2 \/ s = 3 \/ s = 4 \/ s = 5) as Hs' by lia.
    assert (t = 0 \/ t = 1 \/ t = 2 \/ t = 3 \/ t = 4 \/ t = 5) as Ht' by lia.
    destruct Hs' as [->|[->|[->|[->|[->| ->]]]]];
      destruct Ht' as [->|[->|[->|[->|[->| ->]]]]];
      cbn; intros H; try reflexivity; discriminate H.
  - intros s Hs.
    assert (s = 0 \/ s = 1 \/ s = 2 \/ s = 3 \/ s = 4 \/ s = 5) as Hs' by lia.
    destruct Hs' as [->|[->|[->|[->|[->| ->]]]]]; cbn; discriminate.
Qed.

Lemma severity_classes_witness : Label SeverityWarning <> "unknown".
Proof.
  apply (proj2 (proj2 (proj2 severity_classes)) SeverityWarning).
  unfold SeverityWarning. lia.
Defined.

(** ** Diagnostics behind pointers *)




(** ** The registry and the dispatch *)

(** X7.  [AddSource] stores the content under the file name and replaces
    what was there; other files and the format stay as they were.  For the
    snippet printer this means: a range in another file is rendered as
    before, and a range in the added file is rendered from the lines of the
    new content. *)
Theorem AddSource_lookup (e : ErrorReporter) (filename content : string) :
  Sources (AddSource e filename content) !! filename = Some content /\
  (forall other : string,
     other <> filename ->
     Sources (AddSource e filename content) !! other = Sources e !! other) /\
  Format (AddSource e filename content) = Format e /\
  (forall older : string,
     AddSource (AddSource e filename older) filename content
       = AddSource e filename content) /\
  (forall (r : SourceRange) (color : string),
     File r <> filename ->
     printSourceSnippet (AddSource e filename content) r color
       = printSourceSnippet e r color) /\
  (forall (r : SourceRange) (color : string),
     File r = filename ->
     printSourceSnippet (AddSource e filename content) r color
       = for_each (snippetLine e r color (strings_Split content "010"))
           (range_list (contextStart r)
                       (contextEnd r (strings_Split content "010")))).
Proof.
  split; [|split; [|split; [|split; [|split]]]].
  - apply lookup_insert_eq.
  - intros other Hne. cbn [AddSource Sources]. now apply lookup_insert_ne.
  - reflexivity.
  - intros older. unfold AddSource. cbn [Sources Format].
    now rewrite insert_insert_eq.
  - intros r color Hne. unfold printSourceSnippet. cbn [AddSource Sources].
    rewrite lookup_insert_ne by congruence. reflexivity.
  - intros r color Heq. unfold printSourceSnippet. cbn [AddSource Sources].
    rewrite Heq, lookup_insert_eq. reflexivity.
Qed.

Lemma AddSource_lookup_witness :
  Sources (AddSource example_reporter "other.go" "x") !! "example.go"
    = Sources example_reporter !! "example.go".
Proof.
  apply (proj1 (proj2 (AddSource_lookup example_reporter "other.go" "x")) "example.go").
  discriminate.
Defined.

(** X8.  [Report] follows the format of the reporter: a new reporter prints
    the verbose format, [WithFormat] switches to the GCC or the MSVC line and
    keeps the registry, and with a format that is none of the three declared
    ones [Report] prints nothing and returns. *)
Theorem Report_dispatch (e : ErrorReporter) (d : Diagnostic) :
  Report NewErrorReporter d = printFehler NewErrorReporter d /\
  Report (WithFormat e FormatFehler) d = printFehler (WithFormat e FormatFehler) d /\
  Report (WithFormat e FormatGCC) d = printGcc e d /\
  Report (WithFormat e FormatMSVC) d = printMsvc e d /\
  (forall format : OutputFormat,
     Sources (WithFormat e format) = Sources e /\
     (format < 0 \/ 2 < format -> Report (WithFormat e format) d = ("", Done tt))).
Proof.
  repeat split.
  intros Hf. unfold Report. cbn [WithFormat Format].
  destruct format as [|[[?|?|]|[?|?|]|]|?]; try lia; reflexivity.
Qed.

Lemma Report_dispatch_witness :
  Report (WithFormat example_reporter 7) example_diagnostic = ("", Done tt).
Proof.
  apply (proj2 (proj2 (proj2 (proj2 (proj2
           (Report_dispatch example_reporter example_diagnostic)))) 7)).
  right. lia.
Defined.

(** ** Batches *)

Lemma result_unit (m : Console unit) (u : unit) :
  result m = Done u -> m = (stdout m, Done tt).
Proof. destruct m as [out [[]|msg]]; [reflexivity | discriminate]. Qed.

Lemma ReportMany_all_done (e : ErrorReporter) (diagnostics : list Diagnostic) :
  Forall (fun d => result (Report e d) = Done tt) diagnostics ->
  ReportMany e diagnostics =
    (concat_strings (map (fun d => stdout (Report e d)) diagnostics), Done tt).
Proof.
  induction 1 as [|d rest Hd _ IH]; [reflexivity|].
  cbn [ReportMany map concat_strings].
  rewrite (result_unit _ _ Hd), bind_done, IH. reflexivity.
Qed.

(** X9.  [ReportMany] reports the diagnostics in input order: a batch that is
    the concatenation of two is reported as the first and then the second;
    while every report returns, the output is the outputs of the single
    reports one after the other; and the empty batch writes nothing. *)
Theorem ReportMany_in_order (e : ErrorReporter) :
  ReportMany e [] = ("", Done tt) /\
  (forall batch1 batch2 : list Diagnostic,
     ReportMany e (batch1 ++ batch2) = (ReportMany e batch1;; ReportMany e batch2)) /\
  (forall diagnostics : list Diagnostic,
     Forall (fun d => result (Report e d) = Done tt) diagnostics ->
     ReportMany e diagnostics =
       (concat_strings (map (fun d => stdout (Report e d)) diagnostics), Done tt)).
Proof.
  split; [reflexivity|]. split; [|apply ReportMany_all_done].
  intros batch1 batch2. induction batch1 as [|d rest IH].
  - cbn [app ReportMany]. now rewrite bind_ret.
  - cbn [app ReportMany]. now rewrite IH, bind_assoc.
Qed.

Lemma ReportMany_in_order_witness :
  ReportMany (WithFormat example_reporter FormatMSVC)
             [example_diagnostic; NewDiagnostic SeverityNote "done"] =
    ("example.go(5, 14): error E0001: type mismatch: cannot add int and string" +:+ nl
     +:+ "note: done" +:+ nl, Done tt).
Proof.
  apply (proj2 (proj2 (ReportMany_in_order (WithFormat example_reporter FormatMSVC)))
           [example_diagnostic; NewDiagnostic SeverityNote "done"]).
  repeat constructor.
Defined.

(** X10.  A panic ends the batch: when the reports of the diagnostics before
    [d] return and the report of [d] panics, [ReportMany] has written their
    outputs and what the report of [d] wrote before it stopped, ends with
    that panic, and reports none of the diagnostics after [d]. *)
Theorem ReportMany_stops_at_panic (e : ErrorReporter)
    (before after : list Diagnostic) (d : Diagnostic) (msg : string) :
  Forall (fun d' => result (Report e d') = Done tt) before ->
  result (Report e d) = Panic msg ->
  ReportMany e (before ++ d :: after) =
    (concat_strings (map (fun d' => stdout (Report e d')) before)
     +:+ stdout (Report e d), Panic msg).
Proof.
  intros Hbefore Hd. induction Hbefore as [|d' rest Hd' _ IH].
  - cbn [app ReportMany map concat_strings].
    destruct (Report e d) as [out [u|msg']]; [discriminate Hd|].
    cbn in Hd. injection Hd as ->. reflexivity.
  - cbn [app ReportMany map concat_strings].
    rewrite (result_unit _ _ Hd'), bind_done, IH.
    unfold stdout, result. cbn [fst snd]. now rewrite append_assoc.
Qed.

Lemma ReportMany_stops_at_panic_witness :
  let r := NewSourceRangeSpan "wide.go" 1 81 2 1 in
  let e := AddSource NewErrorReporter "wide.go" (repeat_string "x" 90 +:+ nl +:+ "y") in
  let d := WithRange (NewDiagnostic SeverityError "unterminated block") r in
  result (ReportMany e [NewDiagnostic SeverityNote "first"; d;
                        NewDiagnostic SeverityNote "lost"])
    = Panic "strings: negative Repeat count".
Proof.
  intros r e d.
  assert (result (Report e d) = Panic "strings: negative Repeat count") as Hd
    by (vm_compute; reflexivity).
  assert (Forall (fun d' => result (Report e d') = Done tt)
                 [NewDiagnostic SeverityNote "first"]) as Hbefore
    by repeat constructor.
  pose proof (ReportMany_stops_at_panic e [NewDiagnostic SeverityNote "first"]
                [NewDiagnostic SeverityNote "lost"] d _ Hbefore Hd) as Hstop.
  cbn [app] in Hstop. now rewrite Hstop.
Defined.

(** X11.  The two one-line formats never panic and never read the registry:
    in the GCC or the MSVC format a batch always returns, and its output is
    one line per diagnostic, in input order. *)
Theorem ReportMany_one_line_formats (e : ErrorReporter) (diagnostics : list Diagnostic) :
  (Format e = FormatGCC ->
   ReportMany e diagnostics =
     (concat_strings (map (fun d => stdout (printGcc NewErrorReporter d)) diagnostics),
      Done tt)) /\
  (Format e = FormatMSVC ->
   ReportMany e diagnostics =
     (concat_strings (map (fun d => stdout (printMsvc NewErrorReporter d)) diagnostics),
      Done tt)).
Proof.
  split; intros Hf.
  - rewrite ReportMany_all_done.
    + f_equal. f_equal. apply map_ext. intros d. unfold Report. now rewrite Hf.
    + apply Forall_forall. intros d _. unfold Report. rewrite Hf.
      unfold printGcc. now destruct (Range d).
  - rewrite ReportMany_all_done.
    + f_equal. f_equal. apply map_ext. intros d. unfold Report. now rewrite Hf.
    + apply Forall_forall. intros d _. unfold Report. rewrite Hf.
      unfold printMsvc. now destruct (Range d).
Qed.

Lemma ReportMany_one_line_formats_witness :
  ReportMany (WithFormat example_reporter FormatGCC) [NewDiagnostic SeverityTodo "later"] =
    (colorBold +:+ colorMagenta +:+ "todo: " +:+ colorReset +:+ colorBold
     +:+ "later" +:+ colorReset +:+ nl, Done tt).
Proof.
  apply (proj1 (ReportMany_one_line_formats (WithFormat example_reporter FormatGCC)
                  [NewDiagnostic SeverityTodo "later"])).
  reflexivity.
Defined.

(** ** More on the context window and the snippet *)

Lemma length_range_list (lo hi : Z) :
  length (range_list lo hi) = Z.to_nat (hi - lo + 1).
Proof. unfold range_list. apply length_seqZ. Qed.

(** X12.  For a range whose lines are [int]s on which [+ 2] does not
    overflow: every line the range touches that exists in the file is in the
    context window; the window of a single-line range has at most 5 lines;
    and the window of a range from [start.line] to a later [end.line] has at
    most [end.line - start.line + 5] lines. *)
Theorem window_covers_range (r : SourceRange) (lines : list string) :
  GoInt.min_int <= Line (Start r) <= GoInt.max_int - 2 ->
  GoInt.min_int <= Line (End_ r) <= GoInt.max_int - 2 ->
  (forall n : Z,
     Line (Start r) <= n <= Line (End_ r) -> 1 <= n <= len_slice lines ->
     n ∈ range_list (contextStart r) (contextEnd r lines)) /\
  (IsMultiline r = false ->
   (length (range_list (contextStart r) (contextEnd r lines)) <= 5)%nat) /\
  (Line (Start r) <= Line (End_ r) ->
   (length (range_list (contextStart r) (contextEnd r lines))
    <= Z.to_nat (Line (End_ r) - Line (Start r) + 5))%nat).
Proof.
  intros Hs He.
  pose proof (contextStart_max r) as Hcs. rewrite Hcs by int_bounds.
  rewrite (contextEnd_min r lines Hs He).
  split; [|split].
  - intros n Htouch Hfile. apply elem_of_range_list.
    destruct (IsMultiline r) eqn:Hml; [lia|].
    apply IsMultiline_false in Hml. lia.
  - intros Hml. rewrite length_range_list, Hml. lia.
  - intros Hord. rewrite length_range_list.
    destruct (IsMultiline r) eqn:Hml; [lia|].
    apply IsMultiline_false in Hml. lia.
Qed.

Lemma window_covers_range_witness :
  5 ∈ range_list (contextStart (NewSourceRangeSpan "example.go" 5 14 5 20))
                 (contextEnd (NewSourceRangeSpan "example.go" 5 14 5 20)
                             (strings_Split example_source "010")).
Proof.
  apply (proj1 (window_covers_range (NewSourceRangeSpan "example.go" 5 14 5 20)
                  (strings_Split example_source "010")
                  (conj (Zle_bool_imp_le GoInt.min_int 5 eq_refl)
                        (Zle_bool_imp_le 5 (GoInt.max_int - 2) eq_refl))
                  (conj (Zle_bool_imp_le GoInt.min_int 5 eq_refl)
                        (Zle_bool_imp_le 5 (GoInt.max_int - 2) eq_refl))) 5).
  - simpl. lia.
  - vm_compute. split; discriminate.
Defined.

(** X13.  When the range touches no line of the window, because its end line
    is before its start line or because it starts after the last line of the
    file, the snippet is the lines of the window behind dimmed gutters, with
    no underline row, and the printer returns whatever the columns of the
    range are. *)
Theorem snippet_without_touched_line
    (e : ErrorReporter) (r : SourceRange) (color source : string) :
  Sources e !! File r = Some source ->
  GoInt.in_int (Line (Start r)) ->
  Line (End_ r) < Line (Start r)
  \/ len_slice (strings_Split source "010") < Line (Start r) ->
  printSourceSnippet e r color =
    (concat_strings
       (map (fun n =>
               "  " +:+ colorDim +:+ fmt_4d n +:+ " |" +:+ colorReset +:+ " "
               +:+ default "" (strings_Split source "010" !! Z.to_nat (n - 1))
               +:+ nl)
            (range_list (contextStart r)
                        (contextEnd r (strings_Split source "010")))),
     Done tt).
Proof.
  intros Hsrc Hline Hout. rewrite (printSourceSnippet_loop e r color source Hsrc).
  apply for_each_done. intros n Hn.
  destruct (window_in_file r _ n Hline Hn) as [Hin Hmax].
  unfold snippetLine. rewrite index_in_range, bind_ret by assumption. cbv zeta.
  assert ((n >=? Line (Start r)) && (n <=? Line (End_ r)) = false) as ->;
    [|reflexivity].
  destruct (Z.geb_spec n (Line (Start r))); [|reflexivity].
  destruct (Z.leb_spec n (Line (End_ r))); [|reflexivity]. lia.
Qed.

Lemma snippet_without_touched_line_witness :
  result (printSourceSnippet example_reporter
            (NewSourceRangeSpan "example.go" 9 200 12 1) colorRed) = Done tt.
Proof.
  rewrite (snippet_without_touched_line example_reporter
             (NewSourceRangeSpan "example.go" 9 200 12 1) colorRed example_source).
  - reflexivity.
  - reflexivity.
  - unfold GoInt.in_int, GoInt.min_int, GoInt.max_int. simpl. lia.
  - right. vm_compute. reflexivity.
Defined.

(** ** Which panics the verbose format can end with *)

Section PanicMessages.

Variable P : string -> Prop.

Lemma panics_with_bind {A B} (m : Console A) (k : A -> Console B) :
  panics_with P m -> (forall a : A, panics_with P (k a)) -> panics_with P (m ≫= k).
Proof.
  destruct m as [out [a|msg]]; intros Hm Hk; [|exact Hm].
  specialize (Hk a). unfold panics_with, result, mbind, Console_bind in *.
  now destruct (k a) as [out' [b|msg']].
Qed.

Lemma panics_with_print (s : string) : panics_with P (print s).
Proof. exact I. Qed.

Lemma panics_with_ret {A} (a : A) : panics_with P (mret a).
Proof. exact I. Qed.

Lemma panics_with_for_each (body : Z -> Console unit) (idx : list Z) :
  (forall i : Z, i ∈ idx -> panics_with P (body i)) ->
  panics_with P (for_each body idx).
Proof.
  induction idx as [|i idx IH]; intros Hbody; [exact I|].
  cbn [for_each]. apply panics_with_bind.
  - apply Hbody. apply list_elem_of_here.
  - intros _. apply IH. intros j Hj. apply Hbody. now apply list_elem_of_further.
Qed.

End PanicMessages.

Local Abbreviation negative_count :=
  (fun msg : string =>
     msg = "strings: negative Repeat count"
     \/ msg = "runtime error: makeslice: len out of range").

Lemma panics_with_Repeat_char (c : ascii) (count : Z) :
  count <= GoInt.max_int ->
  panics_with negative_count (strings_Repeat (String c "") count).
Proof.
  intros Hc. unfold strings_Repeat, len. simpl String.length.
  destruct (Z.ltb_spec count 0); [now left|].
  destruct (Z.ltb_spec GoInt.max_int (Z.of_nat 1 * count)); [lia|].
  destruct (Z.ltb_spec maxAlloc (Z.of_nat 1 * count)); [now right | exact I].
Qed.

Lemma wrap_le_max (z : Z) : GoInt.wrap z <= GoInt.max_int.
Proof. apply wrap_range. Qed.

Lemma Length_le_max (r : SourceRange) : Length r <= GoInt.max_int.
Proof.
  unfold Length, GoInt.add.
  destruct (IsMultiline r); [int_bounds|].
  destruct (Column (End_ r) >=? Column (Start r)); [apply wrap_le_max | int_bounds].
Qed.

Lemma printUnderline_panics (e : ErrorReporter) (r : SourceRange)
    (lineNum : Z) (color : string) :
  Column (End_ r) <= GoInt.max_int ->
  panics_with negative_count (printUnderline e r lineNum 4 color).
Proof.
  intros He. unfold printUnderline.
  repeat first
    [ exact I
    | apply panics_with_Repeat_char;
        first [ apply wrap_le_max | apply Length_le_max | assumption | int_bounds ]
    | apply panics_with_bind; [|intros ?]
    | match goal with
      | |- panics_with _ (if ?b then _ else _) => destruct b
      end ].
Qed.

Lemma printSourceSnippet_panics (e : ErrorReporter) (r : SourceRange) (color : string) :
  GoInt.in_int (Line (Start r)) ->
  Column (End_ r) <= GoInt.max_int ->
  panics_with negative_count (printSourceSnippet e r color).
Proof.
  intros Hline He. unfold printSourceSnippet.
  destruct (Sources e !! File r) as [source|]; [|exact I].
  apply panics_with_for_each. intros n Hn.
  destruct (window_in_file r _ n Hline Hn) as [Hin Hmax].
  unfold snippetLine. rewrite index_in_range, bind_ret by assumption. cbv zeta.
  destruct ((n >=? Line (Start r)) && (n <=? Line (End_ r))); [|exact I].
  apply panics_with_bind; [exact I|]. intros _. now apply printUnderline_panics.
Qed.

(** X14.  The verbose format never reads past the lines of the file: for a
    diagnostic whose range has an [int] start line and an end column within
    [int] (or which has no range), a panic of [printFehler], and so of
    [Report] in any format, can only be one of the two that [strings.Repeat]
    raises here, its negative count or the allocation of a result that is too
    long; an index out of range does not happen. *)
Theorem printFehler_only_panics_in_Repeat (e : ErrorReporter) (d : Diagnostic) :
  (forall r : SourceRange,
     Range d = Some r ->
     GoInt.in_int (Line (Start r)) /\ Column (End_ r) <= GoInt.max_int) ->
  panics_with (fun msg => msg = "strings: negative Repeat count"
                          \/ msg = "runtime error: makeslice: len out of range")
              (printFehler e d) /\
  panics_with (fun msg => msg = "strings: negative Repeat count"
                          \/ msg = "runtime error: makeslice: len out of range")
              (Report e d).
Proof.
  intros Hrange.
  assert (panics_with negative_count (printFehler e d)) as Hfehler.
  { unfold printFehler.
    apply panics_with_bind; [now destruct (Code d)|]. intros _.
    apply panics_with_bind.
    - destruct (Range d) as [r|]; [|exact I].
      destruct (Hrange r eq_refl) as [Hline He].
      apply panics_with_bind; [exact I|]. intros _.
      now apply printSourceSnippet_panics.
    - intros _. apply panics_with_bind; [now destruct (Help d)|]. intros _.
      apply panics_with_bind; [now destruct (Url d)|]. intros _. exact I. }
  split; [exact Hfehler|].
  unfold Report. destruct (Format e) as [|[[?|?|]|[?|?|]|]|?];
    try exact I; try exact Hfehler.
  - unfold printMsvc. now destruct (Range d).
  - unfold printGcc. now destruct (Range d).
Qed.

Lemma printFehler_only_panics_in_Repeat_witness :
  panics_with (fun msg => msg = "strings: negative Repeat count"
                          \/ msg = "runtime error: makeslice: len out of range")
    (printFehler example_reporter
       (WithRange example_diagnostic (NewSourceRangeSpan "example.go" 5 90 6 1))).
Proof.
  apply (printFehler_only_panics_in_Repeat example_reporter
           (WithRange example_diagnostic (NewSourceRangeSpan "example.go" 5 90 6 1))).
  intros r [= <-]. split.
  - unfold GoInt.in_int, GoInt.min_int, GoInt.max_int. simpl. lia.
  - unfold GoInt.max_int. simpl. lia.
Defined.

(** X15.  A panic of the snippet printer ends the verbose report there: the
    header, the location line and what the snippet printer had written are on
    standard output, and the help line, the url line and the closing blank
    line of that diagnostic are not written. *)
Theorem printFehler_stops_at_snippet_panic
    (e : ErrorReporter) (d : Diagnostic) (r : SourceRange) (partial msg : string) :
  Range d = Some r ->
  printSourceSnippet e r (Color (Severity_ d)) = (partial, Panic msg) ->
  printFehler e d =
    (match Code d with
     | Some code =>
         Color (Severity_ d) +:+ colorBold +:+ Label (Severity_ d)
         +:+ "[" +:+ code +:+ "]" +:+ colorReset +:+ ": " +:+ Message d +:+ nl
     | None =>
         Color (Severity_ d) +:+ colorBold +:+ Label (Severity_ d)
         +:+ colorReset +:+ ": " +:+ Message d +:+ nl
     end
     +:+ ("  " +:+ colorCyan +:+ colorBold +:+ File r +:+ ":"
          +:+ fmt_d (Line (Start r)) +:+ ":" +:+ fmt_d (Column (Start r))
          +:+ colorReset +:+ nl)
     +:+ partial,
     Panic msg).
Proof.
  intros Hr Hsnip. unfold printFehler. rewrite Hr, Hsnip.
  destruct (Code d); rewrite bind_print; unfold stdout, result; cbn [fst snd];
    reflexivity.
Qed.

Lemma printFehler_stops_at_snippet_panic_witness :
  result (printFehler
            (AddSource NewErrorReporter "wide.go" (repeat_string "x" 90 +:+ nl +:+ "y"))
            (WithHelp (WithRange (NewDiagnostic SeverityError "unterminated block")
                                 (NewSourceRangeSpan "wide.go" 1 81 2 1))
                      "close the block"))
    = Panic "strings: negative Repeat count".
Proof.
  erewrite (printFehler_stops_at_snippet_panic _ _
              (NewSourceRangeSpan "wide.go" 1 81 2 1)).
  - reflexivity.
  - reflexivity.
  - vm_compute. reflexivity.
Defined.

(** X16.  The marker stands under the column it marks.  On the touched line
    [n] of a single-line range, with [n] up to 9999, the row of the line has
    9 characters besides the color sequences before the text of the line, and
    the underline row has [9 + start.column - 1] before the caret or the first
    tilde (columns from 1 up to the allocation limit). *)
Theorem marker_is_aligned
    (e : ErrorReporter) (r : SourceRange) (color : string)
    (lines : list string) (n : Z) :
  IsMultiline r = false ->
  n = Line (Start r) ->
  1 <= n <= len_slice lines -> n <= 9999 ->
  1 <= Column (Start r) <= maxAlloc ->
  Column (End_ r) <= maxAlloc ->
  snippetLine e r color lines n =
    ("  " +:+ colorRed +:+ colorBold +:+ (fmt_4d n +:+ " |") +:+ colorReset
     +:+ " " +:+ default "" (lines !! Z.to_nat (n - 1)) +:+ nl
     +:+ "  " +:+ color
     +:+ ("     " +:+ "  " +:+ repeat_string " " (Z.to_nat (Column (Start r) - 1)))
     +:+ (if IsSingleChar r then "^" else repeat_string "~" (Z.to_nat (Length r)))
     +:+ colorReset +:+ nl, Done tt) /\
  String.length ("  " +:+ (fmt_4d n +:+ " |") +:+ " ") = 9%nat /\
  String.length
    ("  " +:+ ("     " +:+ "  " +:+ repeat_string " " (Z.to_nat (Column (Start r) - 1))))
  = (9 + Z.to_nat (Column (Start r) - 1))%nat.
Proof.
  intros Hml -> Hn Hmax Hs He. split; [|split].
  - unfold snippetLine. rewrite index_in_range, bind_ret by (try assumption; int_bounds).
    cbv zeta.
    apply IsMultiline_false in Hml as Hlines.
    assert ((Line (Start r) >=? Line (Start r)) && (Line (Start r) <=? Line (End_ r))
            = true) as ->.
    { apply andb_true_intro. split; [apply Z.geb_le | apply Z.leb_le]; lia. }
    rewrite (underline_single_line e r color (Line (Start r)) Hml Hs He).
    console. now rewrite ?append_assoc.
  - rewrite !length_append, fmt_4d_width_4 by lia. reflexivity.
  - rewrite !length_append, length_repeat_char. reflexivity.
Qed.

Lemma marker_is_aligned_witness :
  String.length ("  " +:+ (fmt_4d 5 +:+ " |") +:+ " ") = 9%nat.
Proof.
  apply (proj1 (proj2 (marker_is_aligned example_reporter
                         (NewSourceRangeSpan "example.go" 5 14 5 20) colorRed
                         (strings_Split example_source "010") 5
                         eq_refl eq_refl
                         (conj (Zle_bool_imp_le 1 5 eq_refl) (Zle_bool_imp_le 5 7 eq_refl))
                         (Zle_bool_imp_le 5 9999 eq_refl)
                         (conj (Zle_bool_imp_le 1 14 eq_refl)
                               (Zle_bool_imp_le 14 maxAlloc eq_refl))
                         (Zle_bool_imp_le 20 maxAlloc eq_refl)))).
Defined.

(** X17.  The lines the snippet printer indexes are the source cut at every
    newline: there is always at least one line, no line holds a newline, and
    the lines joined by newlines are the source again. *)
Theorem strings_Split_lines (source : string) :
  (1 <= len_slice (strings_Split source "010")) /\
  Forall (fun line => ~ In "010"%char (list_ascii_of_string line))
         (strings_Split source "010") /\
  String.concat nl (strings_Split source "010") = source.
Proof.
  induction source as [|c source (Hlen & Hnone & Hjoin)].
  - split; [|split].
    + unfold len_slice. cbn [strings_Split length]. lia.
    + constructor; [intros [] | constructor].
    + reflexivity.
  - cbn [strings_Split].
    destruct (Ascii.eqb_spec c "010") as [->|Hc].
    + split; [|split].
      * unfold len_slice in *. cbn [length]. lia.
      * constructor; [intros [] | assumption].
      * destruct (strings_Split source "010") as [|l ls] eqn:Hsplit.
        { unfold len_slice in Hlen. cbn in Hlen. lia. }
        change (String.concat nl ("" :: l :: ls))
          with ("" +:+ nl +:+ String.concat nl (l :: ls)).
        now rewrite Hjoin.
    + destruct (strings_Split source "010") as [|l ls] eqn:Hsplit.
      { unfold len_slice in Hlen. cbn in Hlen. lia. }
      split; [|split].
      * exact Hlen.
      * apply Forall_cons in Hnone as [Hl Hls]. constructor; [|assumption].
        cbn [list_ascii_of_string]. intros [Heq|Hin]; [congruence | contradiction].
      * rewrite <- Hjoin. destruct ls as [|l' ls]; reflexivity.
Qed.

(** ** More on the structured report *)

Lemma collectRules_entries (diagnostics : list Diagnostic) (k : string) (rule : SarifRule) :
  (k, rule) ∈ map_to_list (collectRules diagnostics ∅) ->
  Rule_ID rule = k /\
  exists d : Diagnostic, d ∈ diagnostics /\ Code d = Some k /\ rule = ruleOf k d.
Proof.
  intros Hin. apply elem_of_map_to_list in Hin.
  split; [now apply (collectRules_id k diagnostics)|].
  rewrite collectRules_lookup, lookup_empty in Hin.
  destruct (list_find (fun d => Code d = Some k) diagnostics) as [[i d]|] eqn:Hfind;
    [|discriminate].
  apply list_find_Some in Hfind as (Hi & Hc & _).
  exists d. split; [now apply list_elem_of_lookup_2 in Hi|].
  split; [assumption|]. cbn in Hin. congruence.
Qed.

Lemma rule_ids_are_keys (diagnostics : list Diagnostic) :
  Rule_ID <$> (map_to_list (collectRules diagnostics ∅)).*2
  = (map_to_list (collectRules diagnostics ∅)).*1.
Proof.
  rewrite <- list_fmap_compose. apply list_fmap_ext.
  intros i [k rule] Hi. cbn.
  apply list_elem_of_lookup_2 in Hi. now apply collectRules_entries in Hi.
Qed.

Lemma collectRules_size (diagnostics : list Diagnostic) (ruleMap : gmap string SarifRule) :
  (size (collectRules diagnostics ruleMap) <= size ruleMap + length diagnostics)%nat.
Proof.
  revert ruleMap. induction diagnostics as [|d rest IH]; intros ruleMap.
  - cbn. lia.
  - cbn [collectRules length]. etransitivity; [apply IH|].
    destruct (Code d) as [c|]; [|lia].
    destruct (ruleMap !! c) eqn:Hc; [lia|].
    rewrite map_size_insert_None by assumption. lia.
Qed.

(** X18.  In every report [EmitSarif] can encode, a result that has a
    [ruleId] names exactly one rule of the driver. *)
Theorem EmitSarif_ruleId_resolves
    (diagnostics : list Diagnostic) (report : SarifReport)
    (run : SarifRun) (res : SarifResult) (code : string) :
  EmitSarif diagnostics report ->
  run ∈ Runs report ->
  res ∈ Results run ->
  Result_RuleID res = Some code ->
  exists rule : SarifRule,
    filter (fun rule' => Rule_ID rule' = code) (Driver_Rules (Driver (Tool run)))
      = [rule]
    /\ Rule_ID rule = code.
Proof.
  intros (rules & Hperm & ->) Hrun Hres Hid.
  apply list_elem_of_singleton in Hrun. subst run.
  cbn [buildReport Tool Driver Driver_Rules Results] in *.
  rewrite collectResults_app, app_nil_l in Hres.
  apply list_elem_of_fmap in Hres as (d & -> & Hd).
  destruct (resultOf_fields d) as (Hcode & _). rewrite Hcode in Hid.
  destruct (list_find_elem_of (fun d' => Code d' = Some code) diagnostics d Hd Hid)
    as [[i d0] Hfind].
  apply list_find_Some in Hfind as (Hi & Hc & Hfirst).
  exists (ruleOf code d0). split; [|reflexivity].
  apply (rules_of_code_first diagnostics rules code i d0); try assumption.
  intros j d' Hj Hd'. now apply (Hfirst j d').
Qed.

Lemma EmitSarif_ruleId_resolves_witness :
  let d := WithCode (NewDiagnostic SeverityError "invalid token") "E001" in
  let run := {| Tool := {| Driver := {| Driver_Name := "fehler";
                                          Driver_Version := "0.5.0";
                                          Driver_InformationURI :=
                                            "https://github.com/ciathefed/fehler";
                                          Driver_Rules := [ruleOf "E001" d] |} |};
                  Results := [resultOf d] |} in
  exists rule : SarifRule,
    filter (fun rule' => Rule_ID rule' = "E001") (Driver_Rules (Driver (Tool run)))
      = [rule]
    /\ Rule_ID rule = "E001".
Proof.
  intros d run.
  apply (EmitSarif_ruleId_resolves [d] (EmitSarif_run [d]) run (resultOf d) "E001").
  - exists (map_to_list (collectRules [d] ∅)).*2. split; reflexivity.
  - vm_compute. left.
  - left.
  - reflexivity.
Defined.

(** X19.  In every report [EmitSarif] can encode, the rules have pairwise
    different ids, each rule is the rule of a diagnostic of the input that
    carries its id, and there are at most as many rules as diagnostics. *)
Theorem EmitSarif_rules_come_from_input
    (diagnostics : list Diagnostic) (report : SarifReport) (run : SarifRun) :
  EmitSarif diagnostics report ->
  run ∈ Runs report ->
  NoDup (Rule_ID <$> Driver_Rules (Driver (Tool run))) /\
  (forall rule : SarifRule,
     rule ∈ Driver_Rules (Driver (Tool run)) ->
     exists d : Diagnostic,
       d ∈ diagnostics /\ Code d = Some (Rule_ID rule)
       /\ rule = ruleOf (Rule_ID rule) d) /\
  (length (Driver_Rules (Driver (Tool run))) <= length diagnostics)%nat.
Proof.
  intros (rules & Hperm & ->) Hrun.
  apply list_elem_of_singleton in Hrun. subst run.
  cbn [buildReport Tool Driver Driver_Rules Results].
  split; [|split].
  - rewrite Hperm, rule_ids_are_keys. apply NoDup_fst_map_to_list.
  - intros rule Hin. rewrite Hperm in Hin.
    apply list_elem_of_fmap in Hin as ([k rule'] & -> & Hin). cbn.
    destruct (collectRules_entries diagnostics k rule' Hin) as (Hid & d & Hd & Hc & Hr).
    exists d. rewrite Hid. auto.
  - rewrite Hperm, length_fmap, length_map_to_list.
    pose proof (collectRules_size diagnostics ∅) as Hsize.
    rewrite map_size_empty in Hsize. lia.
Qed.

Lemma EmitSarif_rules_come_from_input_witness :
  let d := WithCode (NewDiagnostic SeverityError "first") "E001" in
  let d2 := WithCode (NewDiagnostic SeverityWarning "second") "E001" in
  let run := {| Tool := {| Driver := {| Driver_Name := "fehler";
                                          Driver_Version := "0.5.0";
                                          Driver_InformationURI :=
                                            "https://github.com/ciathefed/fehler";
                                          Driver_Rules := [ruleOf "E001" d] |} |};
                  Results := [resultOf d; resultOf d2] |} in
  (length (Driver_Rules (Driver (Tool run))) <= 2)%nat.
Proof.
  intros d d2 run.
  apply (EmitSarif_rules_come_from_input [d; d2] (EmitSarif_run [d; d2]) run).
  - exists (map_to_list (collectRules [d; d2] ∅)).*2. split; reflexivity.
  - vm_compute. left.
Defined.

Lemma collectRules_no_code (diagnostics : list Diagnostic) (ruleMap : gmap string SarifRule) :
  Forall (fun d => Code d = None) diagnostics ->
  collectRules diagnostics ruleMap = ruleMap.
Proof.
  intros Hnone. revert ruleMap.
  induction Hnone as [|d rest Hd _ IH]; intros ruleMap; [reflexivity|].
  cbn [collectRules]. rewrite Hd. apply IH.
Qed.

(** X20.  When no diagnostic carries a code, and so for the empty input, the
    report has no rules: it is the one report with an empty rule list and one
    result without [ruleId] per diagnostic. *)
Theorem EmitSarif_without_codes (diagnostics : list Diagnostic) (report : SarifReport) :
  Forall (fun d => Code d = None) diagnostics ->
  EmitSarif diagnostics report ->
  report = buildReport [] (resultOf <$> diagnostics) /\
  Forall (fun res => Result_RuleID res = None) (resultOf <$> diagnostics).
Proof.
  intros Hnone (rules & Hperm & ->).
  rewrite collectRules_no_code, map_to_list_empty in Hperm by assumption.
  apply Permutation_nil_r in Hperm. subst rules.
  rewrite collectResults_app, app_nil_l. split; [reflexivity|].
  apply Forall_fmap. eapply Forall_impl; [exact Hnone|].
  intros d Hd. cbn. destruct (resultOf_fields d) as [-> _]. exact Hd.
Qed.

Lemma EmitSarif_without_codes_witness :
  EmitSarif_run [] = buildReport [] [].
Proof.
  apply (EmitSarif_without_codes [] (EmitSarif_run [])).
  - constructor.
  - exists []. split; reflexivity.
Defined.

Lemma collectRules_app (batch1 batch2 : list Diagnostic) (ruleMap : gmap string SarifRule) :
  collectRules (batch1 ++ batch2) ruleMap
  = collectRules batch2 (collectRules batch1 ruleMap).
Proof.
  revert ruleMap. induction batch1 as [|d rest IH]; intros ruleMap; [reflexivity|].
  cbn [app collectRules]. apply IH.
Qed.

(** X21.  Diagnostics added at the end of the input do not change what is
    already there: for a code that a diagnostic of the first batch carries,
    the rule in a report of the two batches is the rule in a report of the
    first batch alone, and the results of the two batches are the results of
    the first followed by the results of the second. *)
Theorem EmitSarif_extends
    (batch1 batch2 : list Diagnostic) (report1 report12 : SarifReport)
    (run1 run12 : SarifRun) (code : string) :
  EmitSarif batch1 report1 ->
  EmitSarif (batch1 ++ batch2) report12 ->
  run1 ∈ Runs report1 ->
  run12 ∈ Runs report12 ->
  Results run12 = Results run1 ++ (resultOf <$> batch2) /\
  ((exists d : Diagnostic, d ∈ batch1 /\ Code d = Some code) ->
   filter (fun rule => Rule_ID rule = code) (Driver_Rules (Driver (Tool run12)))
   = filter (fun rule => Rule_ID rule = code) (Driver_Rules (Driver (Tool run1)))).
Proof.
  intros (rules1 & Hperm1 & ->) (rules12 & Hperm12 & ->) Hrun1 Hrun12.
  apply list_elem_of_singleton in Hrun1, Hrun12. subst run1 run12.
  cbn [buildReport Tool Driver Driver_Rules Results].
  split.
  - now rewrite !collectResults_app, !app_nil_l, fmap_app.
  - intros (d & Hd & Hc).
    destruct (list_find_elem_of (fun d' => Code d' = Some code) batch1 d Hd Hc)
      as [[i d0] Hfind].
    assert (collectRules batch1 ∅ !! code = Some (ruleOf code d0)) as Hrule1.
    { rewrite collectRules_lookup, lookup_empty, Hfind. reflexivity. }
    assert (collectRules (batch1 ++ batch2) ∅ !! code = Some (ruleOf code d0)) as Hrule12.
    { rewrite collectRules_app, collectRules_lookup, Hrule1. reflexivity. }
    transitivity [ruleOf code d0]; [|symmetry];
      apply Permutation_singleton_r.
    + rewrite Hperm12, (filter_id_present code _ (ruleOf code d0)); [reflexivity| | |].
      * intros k rule Hin. apply elem_of_map_to_list in Hin.
        now apply (collectRules_id k (batch1 ++ batch2)).
      * apply NoDup_fst_map_to_list.
      * now apply elem_of_map_to_list.
    + rewrite Hperm1, (filter_id_present code _ (ruleOf code d0)); [reflexivity| | |].
      * intros k rule Hin. apply elem_of_map_to_list in Hin.
        now apply (collectRules_id k batch1).
      * apply NoDup_fst_map_to_list.
      * now apply elem_of_map_to_list.
Qed.

Lemma EmitSarif_extends_witness :
  let d := WithCode (NewDiagnostic SeverityError "first") "E001" in
  let d2 := WithCode (NewDiagnostic SeverityWarning "second") "E001" in
  let run1 := {| Tool := {| Driver := {| Driver_Name := "fehler";
                                          Driver_Version := "0.5.0";
                                          Driver_InformationURI :=
                                            "https://github.com/ciathefed/fehler";
                                          Driver_Rules := [ruleOf "E001" d] |} |};
                 Results := [resultOf d] |} in
  let run12 := {| Tool := {| Driver := {| Driver_Name := "fehler";
                                          Driver_Version := "0.5.0";
                                          Driver_InformationURI :=
                                            "https://github.com/ciathefed/fehler";
                                          Driver_Rules := [ruleOf "E001" d] |} |};
                  Results := [resultOf d; resultOf d2] |} in
  Results run12 = Results run1 ++ (resultOf <$> [d2]).
Proof.
  intros d d2 run1 run12.
  apply (EmitSarif_extends [d] [d2] (EmitSarif_run [d]) (EmitSarif_run ([d] ++ [d2]))
           run1 run12 "E001").
  - exists (map_to_list (collectRules [d] ∅)).*2. split; reflexivity.
  - exists (map_to_list (collectRules ([d] ++ [d2]) ∅)).*2. split; reflexivity.
  - vm_compute. left.
  - vm_compute. left.
Defined.

(** X22.  In every report [EmitSarif] can encode, the i-th result has the
    SARIF level of the severity of the i-th diagnostic and the kind [fail],
    and its locations are one location with the file and the four numbers of
    the range when the diagnostic has a range, and none when it has not. *)
Theorem EmitSarif_result_location
    (diagnostics : list Diagnostic) (report : SarifReport) (run : SarifRun)
    (i : nat) (d : Diagnostic) :
  EmitSarif diagnostics report ->
  run ∈ Runs report ->
  diagnostics !! i = Some d ->
  exists res : SarifResult,
    Results run !! i = Some res /\
    Result_Level res = sarifLevel (Severity_ d) /\
    Result_Kind res = "fail" /\
    Result_Locations res =
      match Range d with
      | Some r =>
          [ {| PhysicalLocation :=
                 {| ArtifactLocation := {| URI := File r |};
                    Region := {| StartLine := Line (Start r);
                                 StartColumn := Column (Start r);
                                 EndLine := Line (End_ r);
                                 EndColumn := Column (End_ r) |} |} |} ]
      | None => []
      end.
Proof.
  intros (rules & Hperm & ->) Hrun Hi.
  apply list_elem_of_singleton in Hrun. subst run.
  cbn [buildReport Results]. exists (resultOf d).
  rewrite collectResults_app, app_nil_l, list_lookup_fmap, Hi.
  split; [reflexivity|]. unfold resultOf. now destruct (Code d), (Range d).
Qed.

Lemma EmitSarif_result_location_witness :
  let d := WithLocation (NewDiagnostic SeverityError "invalid token") "main.go" 1 2 in
  let run := {| Tool := {| Driver := {| Driver_Name := "fehler";
                                         Driver_Version := "0.5.0";
                                         Driver_InformationURI :=
                                           "https://github.com/ciathefed/fehler";
                                         Driver_Rules := [] |} |};
                Results := [resultOf d] |} in
  exists res : SarifResult,
    Results run !! 0%nat = Some res /\
    Result_Level res = "error" /\
    Result_Kind res = "fail" /\
    Result_Locations res =
      [ {| PhysicalLocation :=
             {| ArtifactLocation := {| URI := "main.go" |};
                Region := {| StartLine := 1; StartColumn := 2;
                             EndLine := 1; EndColumn := 2 |} |} |} ].
Proof.
  intros d run.
  apply (EmitSarif_result_location [d] (EmitSarif_run [d]) run 0 d).
  - exists (map_to_list (collectRules [d] ∅)).*2. split; reflexivity.
  - vm_compute. left.
  - reflexivity.
Defined.

(** ** The verbose format on well-formed ranges *)

(** X23.  For a diagnostic without a range, or with a range whose start line
    is an [int], whose columns are between 1 and the allocation limit
    [maxAlloc], and whose start column is at most 80 when it spans lines, the
    verbose format returns, whether or
    not the file is registered; what it writes starts with the header line
    and ends with the blank line. *)
Theorem printFehler_returns (e : ErrorReporter) (d : Diagnostic) :
  (forall r : SourceRange,
     Range d = Some r ->
     GoInt.in_int (Line (Start r)) /\
     1 <= Column (Start r) <= maxAlloc /\
     1 <= Column (End_ r) <= maxAlloc /\
     (IsMultiline r = true -> Column (Start r) <= 80)) ->
  exists body : string,
    printFehler e d =
      (match Code d with
       | Some code =>
           Color (Severity_ d) +:+ colorBold +:+ Label (Severity_ d)
           +:+ "[" +:+ code +:+ "]" +:+ colorReset +:+ ": " +:+ Message d +:+ nl
       | None =>
           Color (Severity_ d) +:+ colorBold +:+ Label (Severity_ d)
           +:+ colorReset +:+ ": " +:+ Message d +:+ nl
       end +:+ body +:+ nl, Done tt).
Proof.
  intros Hrange. destruct (Range d) as [r|] eqn:Hr.
  - destruct (Hrange r eq_refl) as (Hline & Hs & He & Hfirst).
    assert (exists snippet : string,
              printSourceSnippet e r (Color (Severity_ d)) = (snippet, Done tt))
      as [snippet Hsnip].
    { destruct (Sources e !! File r) as [source|] eqn:Hsrc.
      - eexists. rewrite (printSourceSnippet_loop e r _ source Hsrc).
        apply printSourceSnippet_display; try assumption. lia.
      - eexists. now apply printSourceSnippet_missing. }
    exists (("  " +:+ colorCyan +:+ colorBold +:+ File r +:+ ":"
             +:+ fmt_d (Line (Start r)) +:+ ":" +:+ fmt_d (Column (Start r))
             +:+ colorReset +:+ nl)
            +:+ snippet
            +:+ match Help d with
                | Some help =>
                    "  " +:+ colorCyan +:+ colorBold +:+ "help" +:+ colorReset
                    +:+ ": " +:+ help +:+ nl
                | None => ""
                end
            +:+ match Url d with
                | Some url =>
                    "  " +:+ colorCyan +:+ colorBold +:+ "see" +:+ colorReset
                    +:+ ": " +:+ url +:+ nl
                | None => ""
                end).
    rewrite (printFehler_with_snippet d e r snippet Hr Hsnip).
    f_equal. destruct (Code d), (Help d), (Url d);
      rewrite ?append_assoc, ?append_nil_l; reflexivity.
  - exists (match Help d with
            | Some help =>
                "  " +:+ colorCyan +:+ colorBold +:+ "help" +:+ colorReset
                +:+ ": " +:+ help +:+ nl
            | None => ""
            end
            +:+ match Url d with
                | Some url =>
                    "  " +:+ colorCyan +:+ colorBold +:+ "see" +:+ colorReset
                    +:+ ": " +:+ url +:+ nl
                | None => ""
                end).
    rewrite (printFehler_without_range d e Hr).
    f_equal. destruct (Code d), (Help d), (Url d);
      rewrite ?append_assoc, ?append_nil_l; reflexivity.
Qed.

Lemma printFehler_returns_witness :
  exists body : string,
    printFehler example_reporter example_diagnostic =
      (colorRed +:+ colorBold +:+ "error" +:+ "[" +:+ "E0001" +:+ "]" +:+ colorReset
       +:+ ": " +:+ "type mismatch: cannot add int and string" +:+ nl
       +:+ body +:+ nl, Done tt).
Proof.
  destruct (printFehler_returns example_reporter example_diagnostic) as [body Hbody].
  - intros r [= <-]. split; [|split; [|split]].
    + unfold GoInt.in_int, GoInt.min_int, GoInt.max_int. simpl. lia.
    + unfold maxAlloc. simpl. lia.
    + unfold maxAlloc. simpl. lia.
    + intros _. simpl. lia.
  - exists body. rewrite Hbody. reflexivity.
Defined.

(** X24.  A column past the allocation limit stops the report: for a
    single-line range whose start column is above [maxAlloc + 1], the
    underline panics in [strings.Repeat] with [makeslice: len out of range]
    after the gutter is written; a report of a one-character range at column
    [2^62] of a registered file ends with that panic. *)
Theorem printUnderline_column_too_large :
  (forall (e : ErrorReporter) (r : SourceRange) (lineNum : Z) (color : string),
     IsMultiline r = false ->
     maxAlloc + 1 < Column (Start r) <= GoInt.max_int ->
     printUnderline e r lineNum 4 color =
       ("  " +:+ color +:+ "     " +:+ "  ",
        Panic "runtime error: makeslice: len out of range")) /\
  result (Report (AddSource NewErrorReporter "a.go" "x")
                 (WithLocation (NewDiagnostic SeverityError "far") "a.go" 1 (2 ^ 62)))
    = Panic "runtime error: makeslice: len out of range".
Proof.
  split.
  - intros e r lineNum color. apply underline_too_long.
  - vm_compute. reflexivity.
Qed.

Lemma printUnderline_column_too_large_witness :
  printUnderline NewErrorReporter (NewSourceRangeSingle "a.go" 1 (2 ^ 62)) 1 4 colorRed =
    ("  " +:+ colorRed +:+ "     " +:+ "  ",
     Panic "runtime error: makeslice: len out of range").
Proof.
  apply (proj1 printUnderline_column_too_large NewErrorReporter
           (NewSourceRangeSingle "a.go" 1 (2 ^ 62)) 1 colorRed).
  - reflexivity.
  - unfold maxAlloc, GoInt.max_int. simpl. lia.
Defined.
